(** * Version eligibility filter

    A shallow embedding of [filterVersions] from
    [lib/workers/repository/process/lookup/filter.ts], together with the
    properties its specification states about it.

    Layout:
    - [Js]       : the JavaScript string and truthiness primitives the
                   function relies on ([startsWith], [endsWith], [slice],
                   [JSON.stringify] on strings, [===], truthiness);
    - data model : [Release], [FilterConfig], [VersioningApi], the thrown
                   values, and the imported modules as a class [Imports];
    - [M]        : the state-and-exception monad in which the body runs
                   (the state is the module-level [regexes] cache);
    - the function, stage by stage, in source order, over the values that
                   the collaborators return;
    - [Fixture]  : a small concrete set of imports used to run the function;
    - [Calls]    : the function once more over collaborator calls that may
                   throw, with [CallsFixture] to run it;
    - the properties. *)

From Stdlib Require Import ZArith Ascii String List Bool Lia.
From stdpp Require Import base option list gmap strings.

Local Open Scope Z_scope.

(* ===================================================================== *)
(** * JavaScript primitives *)
(* ===================================================================== *)

Module Js.

(** A JavaScript string is a sequence of code units; each [ascii] of a
    Rocq [string] stands for one code unit. *)

Definition length (s : string) : Z := Z.of_nat (String.length s).

(** [s.startsWith(p)] *)
Definition startsWith (s p : string) : bool := String.prefix p s.

(** [s.endsWith(p)] *)
Definition endsWith (s p : string) : bool :=
  (String.length p <=? String.length s)%nat
  && String.eqb
       (String.substring (String.length s - String.length p)
                         (String.length p) s) p.

(** [s.slice(start, stop)]: negative indices count from the end, both
    ends are clamped to [0, length], an empty span gives the empty string. *)
Definition clamp (len i : Z) : Z :=
  if i <? 0 then Z.max (len + i) 0 else Z.min i len.

Definition slice (s : string) (start stop : Z) : string :=
  let len := length s in
  let from := clamp len start in
  let to := clamp len stop in
  String.substring (Z.to_nat from) (Z.to_nat (Z.max (to - from) 0)) s.

(** Truthiness of an optional string: [undefined] and the empty string
    are falsy.  Returns the string when truthy. *)
Definition truthy_string (o : option string) : option string :=
  match o with
  | Some EmptyString => None
  | Some s => Some s
  | None => None
  end.

(** Truthiness of an optional boolean. *)
Definition truthy (o : option bool) : bool :=
  match o with
  | Some true => true
  | _ => false
  end.

(** [o === false] for an optional boolean. *)
Definition is_false (o : option bool) : bool :=
  match o with
  | Some false => true
  | _ => false
  end.

(** [a === b] on [null | number] values. *)
Definition strict_eq (a b : option Z) : bool :=
  match a, b with
  | None, None => true
  | Some x, Some y => x =? y
  | _, _ => false
  end.

(** ** [JSON.stringify] on a string *)

Definition dquote : ascii := ascii_of_nat 34.
Definition backslash : ascii := ascii_of_nat 92.

Definition hex_digit (n : nat) : ascii :=
  if (n <? 10)%nat then ascii_of_nat (48 + n) else ascii_of_nat (87 + n).

(** The two-character escapes and the [\u00XX] form for the remaining
    control characters. *)
Definition escape_char (c : ascii) : string :=
  let n := nat_of_ascii c in
  if (n =? 34)%nat then String backslash (String dquote EmptyString)
  else if (n =? 92)%nat then String backslash (String backslash EmptyString)
  else if (n =? 8)%nat then String backslash "b"
  else if (n =? 12)%nat then String backslash "f"
  else if (n =? 10)%nat then String backslash "n"
  else if (n =? 13)%nat then String backslash "r"
  else if (n =? 9)%nat then String backslash "t"
  else if (n <? 32)%nat then
    String backslash
      (String "u" (String "0" (String "0"
        (String (hex_digit (n / 16)) (String (hex_digit (n mod 16)) EmptyString)))))
  else String c EmptyString.

Fixpoint escape (s : string) : string :=
  match s with
  | EmptyString => EmptyString
  | String c s' => escape_char c +:+ escape s'
  end.

Definition JSON_stringify (s : string) : string :=
  String dquote (escape s +:+ String dquote EmptyString).

(** Characters that [JSON.stringify] leaves as they are. *)
Definition plain_char (c : ascii) : bool :=
  let n := nat_of_ascii c in
  negb (n =? 34)%nat && negb (n =? 92)%nat && negb (n <? 32)%nat.

Fixpoint plain (s : string) : bool :=
  match s with
  | EmptyString => true
  | String c s' => plain_char c && plain s'
  end.

(** [needle] occurs in [s]. *)
Fixpoint includes (s needle : string) : bool :=
  String.prefix needle s
  || match s with
     | EmptyString => false
     | String _ s' => includes s' needle
     end.

End Js.

(* ===================================================================== *)
(** * Data model *)
(* ===================================================================== *)

(** [Release] of the datasource module: the fields the filter reads. *)
Record Release := mkRelease {
  version : string;
  isDeprecated : option bool
}.

(** [FilterConfig], field for field. *)
Record FilterConfig := mkFilterConfig {
  allowedVersions : option string;
  depName : option string;
  followTag : option string;
  ignoreDeprecated : option bool;
  ignoreUnstable : option bool;
  respectLatest : option bool;
  versioning : string
}.

(** The methods of a versioning scheme that the filter calls.  Results
    that the code only tests for truthiness are booleans here;
    [getMajor], [getMinor] and [getPatch] return [null | number]. *)
Record VersioningApi := mkVersioningApi {
  isGreaterThan : string -> string -> bool;
  isStable : string -> bool;
  isValid : string -> bool;
  matches : string -> string -> bool;
  getMajor : string -> option Z;
  getMinor : string -> option Z;
  getPatch : string -> option Z
}.

(** The error object built on the failing branch of the allowed-versions
    block: [new Error(CONFIG_VALIDATION)] with three fields added. *)
Record ValidationError := mkValidationError {
  message : string;
  configFile : string;
  validationError : string;
  validationMessage : string
}.

(** What a call can throw. *)
Inductive Thrown :=
| LookupError (scheme : string)
| TypeError (property : string)
| ConfigError (e : ValidationError).

Inductive Outcome (A : Type) :=
| Return (a : A)
| Throw (e : Thrown).
Arguments Return {A} a.
Arguments Throw {A} e.

(** Modelled from the spec: the modules the file imports, whose code is
    not part of this file; the filter is parametric in them.
    [allVersioning_get] is the versioning-scheme provider lookup, which the
    specification lets fail for a scheme id it does not recognise, so it
    returns an [Outcome].  [regEx], the [semver] functions and [pep440] are
    described as plain validators and matchers and are total.
    [npmVersioning_id], [poetryVersioning_id] and [CONFIG_VALIDATION] are
    the imported constants.

    This class and [VersioningApi] give the values that the collaborators
    return when they return.  The calls themselves, which may throw (a
    pattern that [regEx] rejects, a version that the scheme cannot
    compare), are the subject of the module [Calls] below, and the
    function over these values is the function over those calls whenever
    the calls return these values ([calls_agree]). *)
Class Imports := {
  RegExp : Type;
  regEx : string -> RegExp;
  RegExp_test : RegExp -> string -> bool;
  allVersioning_get : string -> Outcome VersioningApi;
  npmVersioning_id : string;
  poetryVersioning_id : string;
  SemVer : Type;
  semver_validRange : string -> bool;
  semver_coerce : string -> option SemVer;
  semver_satisfies : option SemVer -> string -> bool;
  pep440_isValid : string -> bool;
  pep440_matches : string -> string -> bool;
  CONFIG_VALIDATION : string
}.

(* ===================================================================== *)
(** * The monad of the function body *)
(* ===================================================================== *)

(** The body reads and writes the module-level object [regexes] and may
    throw: a computation takes the cache and gives back the cache and an
    [Outcome]. *)
Module M.
Section Monad.
Context `{Imports}.

Definition t (A : Type) : Type :=
  gmap string RegExp -> gmap string RegExp * Outcome A.

Definition ret {A} (a : A) : t A := fun regexes => (regexes, Return a).

Definition throw {A} (e : Thrown) : t A := fun regexes => (regexes, Throw e).

Definition lift {A} (o : Outcome A) : t A := fun regexes => (regexes, o).

Definition bind {A B} (c : t A) (k : A -> t B) : t B :=
  fun regexes =>
    match c regexes with
    | (regexes', Return a) => k a regexes'
    | (regexes', Throw e) => (regexes', Throw e)
    end.

(** [Array.prototype.filter] with a callback that runs in the monad: the
    callback is called on the elements in index order and the first
    exception ends the call. *)
Fixpoint filterM {A} (f : A -> t bool) (l : list A) : t (list A) :=
  match l with
  | [] => ret []
  | x :: l' =>
      bind (f x) (fun keep =>
      bind (filterM f l') (fun rest =>
      ret (if keep then x :: rest else rest)))
  end.

End Monad.
End M.

Declare Scope js_scope.
Delimit Scope js_scope with js.
Notation "x <- c ;; k" := (M.bind c (fun x => k))
  (at level 100, c at next level, right associativity) : js_scope.
Notation "c ;;; k" := (M.bind c (fun _ => k))
  (at level 100, right associativity) : js_scope.
Local Open Scope js_scope.

(* ===================================================================== *)
(** * [filterVersions] *)
(* ===================================================================== *)

Section Filter.
Context `{Imports}.

(** The inner helper [isVersionStable]. *)
Definition isVersionStable (api : VersioningApi) (version : string) : bool :=
  if negb (isStable api version) then false else true.

(** ** Stage A: leave only versions greater than current *)
Definition stageA (api : VersioningApi) (fromVersion : string)
    (versions : list Release) : list Release :=
  List.filter (fun v => isGreaterThan api (version v) fromVersion) versions.

(** ** Stage B: don't upgrade from non-deprecated to deprecated *)

(** [versions.find((release) => release.version === wanted)] *)
Definition findRelease (versions : list Release) (wanted : string)
    : option Release :=
  List.find (fun release => String.eqb (version release) wanted) versions.

(** The guard [ignoreDeprecated && fromRelease && !fromRelease.isDeprecated]. *)
Definition stageB_guard (config : FilterConfig) (fromVersion : string)
    (versions : list Release) : bool :=
  Js.truthy (ignoreDeprecated config)
  && match findRelease versions fromVersion with
     | Some fromRelease => negb (Js.truthy (isDeprecated fromRelease))
     | None => false
     end.

(** The callback of the inner [filter]: reading [isDeprecated] of an
    [undefined] lookup result is a [TypeError].  (The [logger.debug]
    call writes to the diagnostics sink only and is left out.) *)
Definition stageB_callback (versions : list Release) (v : Release)
    : M.t bool :=
  match findRelease versions (version v) with
  | None => M.throw (TypeError "isDeprecated")
  | Some versionRelease =>
      if Js.truthy (isDeprecated versionRelease)
      then M.ret false
      else M.ret true
  end.

Definition stageB (config : FilterConfig) (fromVersion : string)
    (versions filteredVersions : list Release) : M.t (list Release) :=
  if stageB_guard config fromVersion versions
  then M.filterM (stageB_callback versions) filteredVersions
  else M.ret filteredVersions.

(** ** Stage C: [allowedVersions] *)

Definition isRegexInclude (allowed : string) : bool :=
  (1 <? Js.length allowed)
  && Js.startsWith allowed "/" && Js.endsWith allowed "/".

Definition isRegexExclude (allowed : string) : bool :=
  (2 <? Js.length allowed)
  && Js.startsWith allowed "!/" && Js.endsWith allowed "/".

(** The value of [regexes[key] || regEx(pattern)]: a stored [RegExp]
    object is truthy, so [regEx] is called only for a missing key. *)
Definition cachedOrCompiled (regexes : gmap string RegExp)
    (key pattern : string) : RegExp :=
  match regexes !! key with
  | Some cached => cached
  | None => regEx pattern
  end.

(** [regexes[key] = regexes[key] || regEx(pattern)] *)
Definition cacheRegex (key pattern : string) : M.t unit :=
  fun regexes =>
    (<[key := cachedOrCompiled regexes key pattern]> regexes, Return tt).

(** [regexes[key].test(s)] *)
Definition testCached (key s : string) : M.t bool :=
  fun regexes =>
    match regexes !! key with
    | Some r => (regexes, Return (RegExp_test r s))
    | None => (regexes, Throw (TypeError "test"))
    end.

Definition invalidAllowedVersions (allowed : string) : ValidationError :=
  {| message := CONFIG_VALIDATION;
     configFile := "config";
     validationError := "Invalid `allowedVersions`";
     validationMessage :=
       "The following allowedVersions does not parse as a valid version or range: "
       +:+ Js.JSON_stringify allowed |}.

(** The [if (allowedVersions) { ... }] block.  (The two [logger.debug]
    calls of the fallback branches are left out.) *)
Definition stageC (api : VersioningApi) (config : FilterConfig)
    (filteredVersions : list Release) : M.t (list Release) :=
  match Js.truthy_string (allowedVersions config) with
  | None => M.ret filteredVersions
  | Some allowed =>
      if isRegexInclude allowed then
        cacheRegex allowed (Js.slice allowed 1 (-1)) ;;;
        M.filterM (fun v => testCached allowed (version v)) filteredVersions
      else if isRegexExclude allowed then
        cacheRegex allowed (Js.slice allowed 2 (-1)) ;;;
        M.filterM (fun v => found <- testCached allowed (version v) ;;
                            M.ret (negb found)) filteredVersions
      else if isValid api allowed then
        M.ret (List.filter (fun v => matches api (version v) allowed)
                           filteredVersions)
      else if negb (String.eqb (versioning config) npmVersioning_id)
              && semver_validRange allowed then
        M.ret (List.filter
                 (fun v => semver_satisfies (semver_coerce (version v)) allowed)
                 filteredVersions)
      else if String.eqb (versioning config) poetryVersioning_id
              && pep440_isValid allowed then
        M.ret (List.filter (fun v => pep440_matches (version v) allowed)
                           filteredVersions)
      else M.throw (ConfigError (invalidAllowedVersions allowed))
  end.

(** ** Stage D: unstable versions and the latest version *)

(** [config.followTag || ignoreUnstable === false] *)
Definition stageD_bypass (config : FilterConfig) : bool :=
  match Js.truthy_string (followTag config) with
  | Some _ => true
  | None => Js.is_false (ignoreUnstable config)
  end.

(** The callback used when the current version is unstable. *)
Definition sameRelease (api : VersioningApi) (fromVersion : string)
    (v : Release) : bool :=
  Js.strict_eq (getMajor api (version v)) (getMajor api fromVersion)
  && Js.strict_eq (getMinor api (version v)) (getMinor api fromVersion)
  && Js.strict_eq (getPatch api (version v)) (getPatch api fromVersion).

Definition unstableBranch (api : VersioningApi) (fromVersion : string)
    (filteredVersions : list Release) : list Release :=
  List.filter
    (fun v => isVersionStable api (version v) || sameRelease api fromVersion v)
    filteredVersions.

(** "Normal case: remove all unstable". *)
Definition removeUnstable (api : VersioningApi)
    (filteredVersions : list Release) : list Release :=
  List.filter (fun v => isVersionStable api (version v)) filteredVersions.

(** "Filter the latest": the three early returns and the final filter. *)
Definition filterLatest (api : VersioningApi) (config : FilterConfig)
    (fromVersion : string) (latestVersion : option string)
    (filteredVersions : list Release) : list Release :=
  match Js.truthy_string latestVersion with
  | None => filteredVersions
  | Some latest =>
      if Js.is_false (respectLatest config) then filteredVersions
      else if isGreaterThan api fromVersion latest then filteredVersions
      else List.filter (fun v => negb (isGreaterThan api (version v) latest))
                       filteredVersions
  end.

Definition stageD (api : VersioningApi) (config : FilterConfig)
    (fromVersion : string) (latestVersion : option string)
    (filteredVersions : list Release) : list Release :=
  if stageD_bypass config then filteredVersions
  else if negb (isVersionStable api fromVersion)
  then unstableBranch api fromVersion filteredVersions
  else filterLatest api config fromVersion latestVersion
         (removeUnstable api filteredVersions).

(** ** The function *)

(** Stages A to C: the value of [filteredVersions] when control reaches
    the comment "Return all versions if we aren't ignore unstable". *)
Definition upToStageC (api : VersioningApi) (config : FilterConfig)
    (fromVersion : string) (versions : list Release) : M.t (list Release) :=
  filteredVersions <- stageB config fromVersion versions
                        (stageA api fromVersion versions) ;;
  stageC api config filteredVersions.

(** The scheme lookup is the first statement that runs; the test of
    [fromVersion] follows it. *)
Definition filterVersions (config : FilterConfig)
    (fromVersion latestVersion : option string) (versions : list Release)
    : M.t (list Release) :=
  api <- M.lift (allVersioning_get (versioning config)) ;;
  match Js.truthy_string fromVersion with
  | None => M.ret []
  | Some fromVersion =>
      filteredVersions <- upToStageC api config fromVersion versions ;;
      M.ret (stageD api config fromVersion latestVersion filteredVersions)
  end.

End Filter.

(* ===================================================================== *)
(** * Vocabulary of the specification *)
(* ===================================================================== *)

Section Vocabulary.
Context `{Imports}.

(** The five constraint strategies of the allowed-set stage, in the
    priority order in which the specification lists them. *)
Inductive Strategy :=
| RegexInclude
| RegexExclude
| NativeRange
| GenericFallback
| SchemeFallback.

Definition priority : list Strategy :=
  [RegexInclude; RegexExclude; NativeRange; GenericFallback; SchemeFallback].

(** When a strategy applies to an expression. *)
Definition applicable (api : VersioningApi) (config : FilterConfig)
    (allowed : string) (s : Strategy) : bool :=
  match s with
  | RegexInclude => isRegexInclude allowed
  | RegexExclude => isRegexExclude allowed
  | NativeRange => isValid api allowed
  | GenericFallback =>
      negb (String.eqb (versioning config) npmVersioning_id)
      && semver_validRange allowed
  | SchemeFallback =>
      String.eqb (versioning config) poetryVersioning_id
      && pep440_isValid allowed
  end.

(** Which candidates a strategy keeps. *)
Definition keeps (api : VersioningApi) (allowed : string) (s : Strategy)
    (v : Release) : bool :=
  match s with
  | RegexInclude => RegExp_test (regEx (Js.slice allowed 1 (-1))) (version v)
  | RegexExclude =>
      negb (RegExp_test (regEx (Js.slice allowed 2 (-1))) (version v))
  | NativeRange => matches api (version v) allowed
  | GenericFallback => semver_satisfies (semver_coerce (version v)) allowed
  | SchemeFallback => pep440_matches (version v) allowed
  end.

(** "The first applicable one wins." *)
Definition firstApplicable (api : VersioningApi) (config : FilterConfig)
    (allowed : string) : option Strategy :=
  List.find (applicable api config allowed) priority.

(** The allowed-set stage as the specification words it: an ordered list
    of (predicate, handler) pairs tried until one applies, falling
    through to the configuration error. *)
Definition stageC_spec (api : VersioningApi) (config : FilterConfig)
    (filteredVersions : list Release) : Outcome (list Release) :=
  match Js.truthy_string (allowedVersions config) with
  | None => Return filteredVersions
  | Some allowed =>
      match firstApplicable api config allowed with
      | Some s => Return (List.filter (keeps api allowed s) filteredVersions)
      | None => Throw (ConfigError (invalidAllowedVersions allowed))
      end
  end.

(** The cache only ever holds, under an expression, the pattern compiled
    from that expression's inner text. *)
Definition cache_ok (regexes : gmap string RegExp) : Prop :=
  forall key r, regexes !! key = Some r ->
    (isRegexInclude key = true -> r = regEx (Js.slice key 1 (-1)))
    /\ (isRegexInclude key = false -> isRegexExclude key = true ->
        r = regEx (Js.slice key 2 (-1))).

(** The deprecation flag that the deprecation guard reads for a
    candidate: that of the record found under the candidate's version. *)
Definition recordDeprecated (versions : list Release) (v : Release) : bool :=
  match findRelease versions (version v) with
  | Some versionRelease => Js.truthy (isDeprecated versionRelease)
  | None => false
  end.

(** What the deprecation guard leaves of [filteredVersions]. *)
Definition afterStageB (config : FilterConfig) (fromVersion : string)
    (versions filteredVersions : list Release) : list Release :=
  if stageB_guard config fromVersion versions
  then List.filter (fun v => negb (recordDeprecated versions v))
                   filteredVersions
  else filteredVersions.

(** Position of a strategy in the priority order. *)
Definition rank (s : Strategy) : nat :=
  match s with
  | RegexInclude => 0
  | RegexExclude => 1
  | NativeRange => 2
  | GenericFallback => 3
  | SchemeFallback => 4
  end.

(** The (major, minor, patch) triple of a version under a scheme. *)
Definition triple (api : VersioningApi) (v : string)
    : option Z * option Z * option Z :=
  (getMajor api v, getMinor api v, getPatch api v).

(** The versions of a candidate sequence are pairwise distinct. *)
Definition uniqueVersions (versions : list Release) : Prop :=
  NoDup (map version versions).

End Vocabulary.

(* ===================================================================== *)
(** * The verdict on one candidate *)
(* ===================================================================== *)

(** The four stages, each read as a test on a single candidate; the
    conjunction [accepts] is what the whole body asks of a record of
    [versions]. *)
Section Verdict.
Context `{Imports}.

(** A test that looks at the version string of a record only. *)
Definition versionwise (P : Release -> bool) : Prop :=
  forall a b, version a = version b -> P a = P b.

Definition stageB_keep (config : FilterConfig) (fromVersion : string)
    (versions : list Release) (v : Release) : bool :=
  if stageB_guard config fromVersion versions
  then negb (recordDeprecated versions v)
  else true.

Definition stageC_keep (api : VersioningApi) (config : FilterConfig)
    (v : Release) : bool :=
  match Js.truthy_string (allowedVersions config) with
  | None => true
  | Some allowed =>
      match firstApplicable api config allowed with
      | Some s => keeps api allowed s v
      | None => true
      end
  end.

Definition latest_keep (api : VersioningApi) (config : FilterConfig)
    (fromVersion : string) (latestVersion : option string) (v : Release)
    : bool :=
  match Js.truthy_string latestVersion with
  | None => true
  | Some latest =>
      if Js.is_false (respectLatest config) then true
      else if isGreaterThan api fromVersion latest then true
      else negb (isGreaterThan api (version v) latest)
  end.

Definition stageD_keep (api : VersioningApi) (config : FilterConfig)
    (fromVersion : string) (latestVersion : option string) (v : Release)
    : bool :=
  if stageD_bypass config then true
  else if negb (isVersionStable api fromVersion)
  then isVersionStable api (version v) || sameRelease api fromVersion v
  else isVersionStable api (version v)
       && latest_keep api config fromVersion latestVersion v.

Definition accepts (api : VersioningApi) (config : FilterConfig)
    (fromVersion : string) (latestVersion : option string)
    (versions : list Release) (v : Release) : bool :=
  isGreaterThan api (version v) fromVersion
  && stageB_keep config fromVersion versions v
  && stageC_keep api config v
  && stageD_keep api config fromVersion latestVersion v.


(** The configuration with [ignoreUnstable] replaced. *)
Definition withIgnoreUnstable (flag : option bool)
    (config : FilterConfig) : FilterConfig :=
  {| allowedVersions := allowedVersions config;
     depName := depName config;
     followTag := followTag config;
     ignoreDeprecated := ignoreDeprecated config;
     ignoreUnstable := flag;
     respectLatest := respectLatest config;
     versioning := versioning config |}.

(** [/pattern/] and [!/pattern/] *)
Definition includeRegex (pattern : string) : string :=
  String "/" (pattern +:+ "/").

Definition excludeRegex (pattern : string) : string :=
  String "!" (String "/" (pattern +:+ "/")).

End Verdict.

(* ===================================================================== *)
(** * Reading a quoted string back *)
(* ===================================================================== *)

(** The inverse of [Js.JSON_stringify] on what follows the opening quote:
    it reads up to the closing quote and undoes the escapes.  The code
    does not call it; it serves to show that the quoted text determines
    the string. *)
Module JsRead.

Definition hex_value (c : ascii) : nat :=
  let n := nat_of_ascii c in
  if (n <? 58)%nat then (n - 48)%nat else (n - 87)%nat.

Definition unescaped (c : ascii) : ascii :=
  let n := nat_of_ascii c in
  if (n =? 98)%nat then ascii_of_nat 8
  else if (n =? 102)%nat then ascii_of_nat 12
  else if (n =? 110)%nat then ascii_of_nat 10
  else if (n =? 114)%nat then ascii_of_nat 13
  else if (n =? 116)%nat then ascii_of_nat 9
  else c.

Fixpoint unescape (s : string) : string :=
  match s with
  | EmptyString => EmptyString
  | String c t =>
      if Ascii.eqb c Js.dquote then EmptyString
      else if Ascii.eqb c Js.backslash then
        match t with
        | EmptyString => EmptyString
        | String d t' =>
            if Ascii.eqb d "u" then
              match t' with
              | String _ (String _ (String h (String l t''))) =>
                  String (ascii_of_nat (16 * hex_value h + hex_value l))
                         (unescape t'')
              | _ => EmptyString
              end
            else String (unescaped d) (unescape t')
        end
      else String c (unescape t)
  end.

End JsRead.

(* ===================================================================== *)
(** * A concrete set of imports *)
(* ===================================================================== *)

(** A small versioning scheme ([major.minor.patch] with an optional
    [-prerelease] suffix), a literal-substring matcher in the place of the
    regular-expression engine, and exact-version ranges.  They serve to run
    [filterVersions] on concrete inputs. *)
Module Fixture.

Definition digit (c : ascii) : option nat :=
  let n := nat_of_ascii c in
  if ((48 <=? n) && (n <=? 57))%nat then Some (n - 48)%nat else None.

Fixpoint number_from (acc : nat) (s : string) : option nat :=
  match s with
  | EmptyString => Some acc
  | String c s' =>
      match digit c with
      | Some d => number_from (10 * acc + d)%nat s'
      | None => None
      end
  end.

Definition number (s : string) : option nat :=
  match s with
  | EmptyString => None
  | _ => number_from 0%nat s
  end.

(** Cut [s] at the first occurrence of [c]. *)
Fixpoint cut (c : ascii) (s : string) : string * option string :=
  match s with
  | EmptyString => (EmptyString, None)
  | String a s' =>
      if Ascii.eqb a c then (EmptyString, Some s')
      else let (h, t) := cut c s' in (String a h, t)
  end.

Record Parsed := mkParsed {
  major : nat;
  minor : nat;
  patch : nat;
  prerelease : option string
}.

Definition parse (s : string) : option Parsed :=
  let (core, pre) := cut "-" s in
  let (a, r1) := cut "." core in
  match r1 with
  | None => None
  | Some r1 =>
      let (b, r2) := cut "." r1 in
      match r2 with
      | None => None
      | Some c =>
          match number a, number b, number c with
          | Some x, Some y, Some z => Some (mkParsed x y z pre)
          | _, _, _ => None
          end
      end
  end.

Definition sameCore (p q : Parsed) : bool :=
  ((major p =? major q) && (minor p =? minor q) && (patch p =? patch q))%nat.

Definition coreGt (p q : Parsed) : bool :=
  ((major q <? major p)
   || ((major p =? major q)
       && ((minor q <? minor p)
           || ((minor p =? minor q) && (patch q <? patch p)))))%nat.

Definition gt (p q : Parsed) : bool :=
  coreGt p q
  || (sameCore p q
      && match prerelease p, prerelease q with
         | None, Some _ => true
         | Some a, Some b => String.ltb b a
         | _, _ => false
         end).

Definition on_parsed {A} (f : Parsed -> A) (v : string) : option A :=
  match parse v with
  | Some p => Some (f p)
  | None => None
  end.

Definition semverApi : VersioningApi :=
  {| isGreaterThan := fun a b =>
       match parse a, parse b with
       | Some p, Some q => gt p q
       | _, _ => false
       end;
     isStable := fun v =>
       match parse v with
       | Some p => match prerelease p with None => true | Some _ => false end
       | None => false
       end;
     isValid := fun spec =>
       match parse spec with Some _ => true | None => false end;
     matches := fun v spec => String.eqb v spec;
     getMajor := on_parsed (fun p => Z.of_nat (major p));
     getMinor := on_parsed (fun p => Z.of_nat (minor p));
     getPatch := on_parsed (fun p => Z.of_nat (patch p)) |}.

(** A scheme that takes every expression for a range that only the
    version [0.0.0] matches. *)
Definition permissiveApi : VersioningApi :=
  {| isGreaterThan := isGreaterThan semverApi;
     isStable := isStable semverApi;
     isValid := fun _ => true;
     matches := fun v _ => String.eqb v "0.0.0";
     getMajor := getMajor semverApi;
     getMinor := getMinor semverApi;
     getPatch := getPatch semverApi |}.

(** An id that is not known gets the semver scheme, as the lookup of
    the versioning module does ("Unknown versioning - defaulting to
    semver"). *)
Definition lookup (id : string) : Outcome VersioningApi :=
  if String.eqb id "semver" || String.eqb id "npm" || String.eqb id "poetry"
  then Return semverApi
  else if String.eqb id "permissive" then Return permissiveApi
  else Return semverApi.

Definition imports : Imports :=
  {| RegExp := string;
     regEx := fun pattern => pattern;
     RegExp_test := fun r s => Js.includes s r;
     allVersioning_get := lookup;
     npmVersioning_id := "npm";
     poetryVersioning_id := "poetry";
     SemVer := Parsed;
     semver_validRange := fun range =>
       match parse range with Some _ => true | None => false end;
     semver_coerce := parse;
     semver_satisfies := fun v range =>
       match v, parse range with
       | Some p, Some q =>
           sameCore p q
           && match prerelease p, prerelease q with
              | None, None => true
              | Some a, Some b => String.eqb a b
              | _, _ => false
              end
       | _, _ => false
       end;
     pep440_isValid := fun spec => String.prefix "==" spec;
     pep440_matches := fun v spec => String.eqb spec ("==" +:+ v);
     CONFIG_VALIDATION := "config-validation" |}.

Definition release (v : string) : Release := mkRelease v None.
Definition deprecated (v : string) : Release := mkRelease v (Some true).

(** The default policy for scheme [id]: every optional field absent. *)
Definition policy (id : string) : FilterConfig :=
  {| allowedVersions := None; depName := Some "dep"; followTag := None;
     ignoreDeprecated := None; ignoreUnstable := None;
     respectLatest := None; versioning := id |}.

Definition allowing (id allowed : string) : FilterConfig :=
  {| allowedVersions := Some allowed; depName := Some "dep";
     followTag := None; ignoreDeprecated := None; ignoreUnstable := None;
     respectLatest := None; versioning := id |}.

Definition keepingUnstable (id : string) : FilterConfig :=
  {| allowedVersions := None; depName := Some "dep"; followTag := None;
     ignoreDeprecated := None; ignoreUnstable := Some false;
     respectLatest := None; versioning := id |}.

Definition avoidingDeprecated (id : string) : FilterConfig :=
  {| allowedVersions := None; depName := Some "dep"; followTag := None;
     ignoreDeprecated := Some true; ignoreUnstable := None;
     respectLatest := None; versioning := id |}.

Definition basicCandidates : list Release :=
  [release "1.0.0"; release "1.1.0"; release "2.0.0"; release "2.1.0-rc.1"].

Definition prereleaseCandidates : list Release :=
  [release "1.2.0-beta.2"; release "1.2.0"; release "1.3.0-beta.1"].

Definition aheadCandidates : list Release :=
  [release "1.1.0"; release "2.0.0"; release "2.1.0"; release "3.0.0-rc.1"].

Definition betaCandidates : list Release :=
  [release "1.1.0-beta.1"; release "1.1.0"].

(** Two records under version [2.0.0], the second one deprecated. *)
Definition repeatedCandidates : list Release :=
  [release "1.0.0"; release "2.0.0"; deprecated "2.0.0"; deprecated "3.0.0"].

(** Run from an empty cache and keep the outcome. *)
Definition run (config : FilterConfig) (fromVersion latestVersion : option string)
    (versions : list Release) : Outcome (list Release) :=
  snd (@filterVersions imports config fromVersion latestVersion versions ∅).

End Fixture.

(* ===================================================================== *)
(** * The function over calls that may throw *)
(* ===================================================================== *)

(** Every collaborator call of [filterVersions] either returns a value or
    throws.  This module is the body once more, statement by statement,
    with each call in the place and in the order in which the source makes
    it, so that what a throwing collaborator does to a call can be read
    off.  The types, the constants and [RegExp_test] come from
    [Imports]. *)
Module Calls.

(** A JavaScript [Error] object: its message and the three optional
    fields that the code and [regEx] set. *)
Record JsError := mkJsError {
  error_message : string;
  error_configFile : option string;
  error_validationError : option string;
  error_validationMessage : option string
}.

(** A thrown value: an [Error] object or a [TypeError]. *)
Inductive Exception :=
| ErrorObject (e : JsError)
| TypeErrorObject (text : string).

Inductive Result (A : Type) :=
| Ok (a : A)
| Raise (e : Exception).
Arguments Ok {A} a.
Arguments Raise {A} e.

(** The methods of a versioning scheme, as calls. *)
Record Scheme := mkScheme {
  call_isGreaterThan : string -> string -> Result bool;
  call_isStable : string -> Result bool;
  call_isValid : string -> Result bool;
  call_matches : string -> string -> Result bool;
  call_getMajor : string -> Result (option Z);
  call_getMinor : string -> Result (option Z);
  call_getPatch : string -> Result (option Z)
}.

(** Modelled from the spec: the collaborators of its section 6, whose code
    is not part of this file, taken as parameters.  Every call may throw,
    except the scheme lookup: it answers every id, an id that it does not
    know being given the default scheme. *)
Class Collaborators `{Imports} := {
  call_get : string -> Scheme;
  call_regEx : string -> Result RegExp;
  call_validRange : string -> Result bool;
  call_coerce : string -> Result (option SemVer);
  call_satisfies : option SemVer -> string -> Result bool;
  call_pep440_isValid : string -> Result bool;
  call_pep440_matches : string -> string -> Result bool
}.

(** What the code itself throws, as a thrown value. *)
Definition errorObject (e : ValidationError) : JsError :=
  {| error_message := message e;
     error_configFile := Some (configFile e);
     error_validationError := Some (validationError e);
     error_validationMessage := Some (validationMessage e) |}.

Definition raised (e : Thrown) : Exception :=
  match e with
  | ConfigError v => ErrorObject (errorObject v)
  | TypeError property => TypeErrorObject property
  | LookupError scheme => ErrorObject (mkJsError scheme None None None)
  end.

Section Monad.
Context `{Imports}.

Definition t (A : Type) : Type :=
  gmap string RegExp -> gmap string RegExp * Result A.

Definition ret {A} (a : A) : t A := fun regexes => (regexes, Ok a).

Definition throw {A} (e : Exception) : t A := fun regexes => (regexes, Raise e).

Definition lift {A} (r : Result A) : t A := fun regexes => (regexes, r).

Definition bind {A B} (c : t A) (k : A -> t B) : t B :=
  fun regexes =>
    match c regexes with
    | (regexes', Ok a) => k a regexes'
    | (regexes', Raise e) => (regexes', Raise e)
    end.

Fixpoint filterM {A} (f : A -> t bool) (l : list A) : t (list A) :=
  match l with
  | [] => ret []
  | x :: l' =>
      bind (f x) (fun keep =>
      bind (filterM f l') (fun rest =>
      ret (if keep then x :: rest else rest)))
  end.

End Monad.

Declare Scope call_scope.
Delimit Scope call_scope with call.
Notation "x <- c ;; k" := (bind c (fun x => k))
  (at level 100, c at next level, right associativity) : call_scope.
Notation "c ;;; k" := (bind c (fun _ => k))
  (at level 100, right associativity) : call_scope.
Local Open Scope call_scope.

Section Body.
Context `{Collaborators}.

Definition isVersionStable (api : Scheme) (version : string) : t bool :=
  stable <- lift (call_isStable api version) ;;
  if negb stable then ret false else ret true.

(** Stage A *)
Definition stageA (api : Scheme) (fromVersion : string)
    (versions : list Release) : t (list Release) :=
  filterM (fun v => lift (call_isGreaterThan api (version v) fromVersion))
          versions.

(** Stage B *)
Definition stageB_callback (versions : list Release) (v : Release) : t bool :=
  match findRelease versions (version v) with
  | None => throw (TypeErrorObject "isDeprecated")
  | Some versionRelease =>
      if Js.truthy (isDeprecated versionRelease) then ret false else ret true
  end.

Definition stageB (config : FilterConfig) (fromVersion : string)
    (versions filteredVersions : list Release) : t (list Release) :=
  if stageB_guard config fromVersion versions
  then filterM (stageB_callback versions) filteredVersions
  else ret filteredVersions.

(** Stage C *)

(** [regexes[key] = regexes[key] || regEx(pattern)]: [regEx] is called
    for a missing key only, and nothing is stored when it throws. *)
Definition cacheRegex (key pattern : string) : t unit :=
  fun regexes =>
    match regexes !! key with
    | Some cached => (<[key := cached]> regexes, Ok tt)
    | None =>
        match call_regEx pattern with
        | Ok r => (<[key := r]> regexes, Ok tt)
        | Raise e => (regexes, Raise e)
        end
    end.

Definition testCached (key s : string) : t bool :=
  fun regexes =>
    match regexes !! key with
    | Some r => (regexes, Ok (RegExp_test r s))
    | None => (regexes, Raise (TypeErrorObject "test"))
    end.

Definition stageC (api : Scheme) (config : FilterConfig)
    (filteredVersions : list Release) : t (list Release) :=
  match Js.truthy_string (allowedVersions config) with
  | None => ret filteredVersions
  | Some allowed =>
      if isRegexInclude allowed then
        cacheRegex allowed (Js.slice allowed 1 (-1)) ;;;
        filterM (fun v => testCached allowed (version v)) filteredVersions
      else if isRegexExclude allowed then
        cacheRegex allowed (Js.slice allowed 2 (-1)) ;;;
        filterM (fun v => found <- testCached allowed (version v) ;;
                          ret (negb found)) filteredVersions
      else
        valid <- lift (call_isValid api allowed) ;;
        if valid then
          filterM (fun v => lift (call_matches api (version v) allowed))
                  filteredVersions
        else
          generic <- (if negb (String.eqb (versioning config) npmVersioning_id)
                      then lift (call_validRange allowed)
                      else ret false) ;;
          if generic then
            filterM (fun v => coerced <- lift (call_coerce (version v)) ;;
                              lift (call_satisfies coerced allowed))
                    filteredVersions
          else
            pypi <- (if String.eqb (versioning config) poetryVersioning_id
                     then lift (call_pep440_isValid allowed)
                     else ret false) ;;
            if pypi then
              filterM (fun v => lift (call_pep440_matches (version v) allowed))
                      filteredVersions
            else throw (raised (ConfigError (invalidAllowedVersions allowed)))
  end.

(** Stage D *)

(** The three [===] comparisons joined by [&&]: a comparison that fails
    ends the chain, the remaining getters are not called. *)
Definition sameRelease (api : Scheme) (fromVersion : string) (v : Release)
    : t bool :=
  major <- lift (call_getMajor api (version v)) ;;
  major' <- lift (call_getMajor api fromVersion) ;;
  if negb (Js.strict_eq major major') then ret false else
  minor <- lift (call_getMinor api (version v)) ;;
  minor' <- lift (call_getMinor api fromVersion) ;;
  if negb (Js.strict_eq minor minor') then ret false else
  patch <- lift (call_getPatch api (version v)) ;;
  patch' <- lift (call_getPatch api fromVersion) ;;
  ret (Js.strict_eq patch patch').

Definition filterLatest (api : Scheme) (config : FilterConfig)
    (fromVersion : string) (latestVersion : option string)
    (filteredVersions : list Release) : t (list Release) :=
  match Js.truthy_string latestVersion with
  | None => ret filteredVersions
  | Some latest =>
      if Js.is_false (respectLatest config) then ret filteredVersions
      else
        ahead <- lift (call_isGreaterThan api fromVersion latest) ;;
        if ahead then ret filteredVersions
        else filterM (fun v => above <- lift (call_isGreaterThan api (version v)
                                                                 latest) ;;
                               ret (negb above))
                     filteredVersions
  end.

Definition stageD (api : Scheme) (config : FilterConfig)
    (fromVersion : string) (latestVersion : option string)
    (filteredVersions : list Release) : t (list Release) :=
  if stageD_bypass config then ret filteredVersions
  else
    stable <- isVersionStable api fromVersion ;;
    if negb stable then
      filterM (fun v => ok <- isVersionStable api (version v) ;;
                        if ok then ret true
                        else sameRelease api fromVersion v)
              filteredVersions
    else
      stableVersions <- filterM (fun v => isVersionStable api (version v))
                                filteredVersions ;;
      filterLatest api config fromVersion latestVersion stableVersions.

(** The function *)
Definition filterVersions (config : FilterConfig)
    (fromVersion latestVersion : option string) (versions : list Release)
    : t (list Release) :=
  let api := call_get (versioning config) in
  match Js.truthy_string fromVersion with
  | None => ret []
  | Some fromVersion =>
      greater <- stageA api fromVersion versions ;;
      kept <- stageB config fromVersion versions greater ;;
      allowed <- stageC api config kept ;;
      stageD api config fromVersion latestVersion allowed
  end.

(** The version strings on which a call may consult the scheme. *)
Definition callArguments (fromVersion : string) (latestVersion : option string)
    (versions : list Release) : list string :=
  fromVersion
  :: match Js.truthy_string latestVersion with
     | Some latest => [latest]
     | None => []
     end
  ++ map version versions.

(** The collaborator calls on the arguments of one call of the function
    return, and [values] together with [Imports] names what they
    return. *)
Record ReturnsLike (api : Scheme) (values : VersioningApi)
    (config : FilterConfig) (names : list string) : Prop := {
  like_isGreaterThan : forall a b, In a names -> In b names ->
    call_isGreaterThan api a b = Ok (isGreaterThan values a b);
  like_isStable : forall a, In a names ->
    call_isStable api a = Ok (isStable values a);
  like_getMajor : forall a, In a names ->
    call_getMajor api a = Ok (getMajor values a);
  like_getMinor : forall a, In a names ->
    call_getMinor api a = Ok (getMinor values a);
  like_getPatch : forall a, In a names ->
    call_getPatch api a = Ok (getPatch values a);
  like_regEx_include : forall allowed,
    Js.truthy_string (allowedVersions config) = Some allowed ->
    isRegexInclude allowed = true ->
    call_regEx (Js.slice allowed 1 (-1)) = Ok (regEx (Js.slice allowed 1 (-1)));
  like_regEx_exclude : forall allowed,
    Js.truthy_string (allowedVersions config) = Some allowed ->
    isRegexExclude allowed = true ->
    call_regEx (Js.slice allowed 2 (-1)) = Ok (regEx (Js.slice allowed 2 (-1)));
  like_isValid : forall allowed,
    Js.truthy_string (allowedVersions config) = Some allowed ->
    call_isValid api allowed = Ok (isValid values allowed);
  like_matches : forall allowed a,
    Js.truthy_string (allowedVersions config) = Some allowed -> In a names ->
    call_matches api a allowed = Ok (matches values a allowed);
  like_validRange : forall allowed,
    Js.truthy_string (allowedVersions config) = Some allowed ->
    call_validRange allowed = Ok (semver_validRange allowed);
  like_coerce : forall a, In a names ->
    call_coerce a = Ok (semver_coerce a);
  like_satisfies : forall allowed a,
    Js.truthy_string (allowedVersions config) = Some allowed -> In a names ->
    call_satisfies (semver_coerce a) allowed
    = Ok (semver_satisfies (semver_coerce a) allowed);
  like_pep440_isValid : forall allowed,
    Js.truthy_string (allowedVersions config) = Some allowed ->
    call_pep440_isValid allowed = Ok (pep440_isValid allowed);
  like_pep440_matches : forall allowed a,
    Js.truthy_string (allowedVersions config) = Some allowed -> In a names ->
    call_pep440_matches a allowed = Ok (pep440_matches a allowed)
}.


End Body.

Local Close Scope call_scope.

End Calls.

(** Collaborators to run the calls with: a semver scheme whose
    comparison throws a [TypeError] on a version that it cannot parse, a
    [regEx] that rejects a pattern with an unclosed group by throwing
    [Error(CONFIG_VALIDATION)] with [validationError] set and no
    [validationMessage], and collaborators that throw on every call. *)
Module CallsFixture.

Definition invalidVersion (v : string) : Calls.Exception :=
  Calls.TypeErrorObject ("Invalid Version: " +:+ v).

Definition compare (a b : string) : Calls.Result bool :=
  match Fixture.parse a, Fixture.parse b with
  | Some p, Some q => Calls.Ok (Fixture.gt p q)
  | None, _ => Calls.Raise (invalidVersion a)
  | Some _, None => Calls.Raise (invalidVersion b)
  end.

Definition semverScheme : Calls.Scheme :=
  {| Calls.call_isGreaterThan := compare;
     Calls.call_isStable := fun v => Calls.Ok (isStable Fixture.semverApi v);
     Calls.call_isValid := fun a => Calls.Ok (isValid Fixture.semverApi a);
     Calls.call_matches := fun v a => Calls.Ok (matches Fixture.semverApi v a);
     Calls.call_getMajor := fun v => Calls.Ok (getMajor Fixture.semverApi v);
     Calls.call_getMinor := fun v => Calls.Ok (getMinor Fixture.semverApi v);
     Calls.call_getPatch := fun v => Calls.Ok (getPatch Fixture.semverApi v) |}.

Definition unclosedGroup (pattern : string) : bool :=
  Js.includes pattern "(" && negb (Js.includes pattern ")").

Definition invalidRegex (pattern : string) : Calls.JsError :=
  {| Calls.error_message := "config-validation";
     Calls.error_configFile := Some pattern;
     Calls.error_validationError :=
       Some ("Invalid regular expression: " +:+ pattern);
     Calls.error_validationMessage := None |}.

Definition compile (pattern : string)
    : Calls.Result (@RegExp Fixture.imports) :=
  if unclosedGroup pattern
  then Calls.Raise (Calls.ErrorObject (invalidRegex pattern))
  else Calls.Ok (@regEx Fixture.imports pattern).

Definition collaborators : @Calls.Collaborators Fixture.imports :=
  {| Calls.call_get := fun _ => semverScheme;
     Calls.call_regEx := compile;
     Calls.call_validRange := fun a =>
       Calls.Ok (@semver_validRange Fixture.imports a);
     Calls.call_coerce := fun v =>
       Calls.Ok (@semver_coerce Fixture.imports v);
     Calls.call_satisfies := fun o a =>
       Calls.Ok (@semver_satisfies Fixture.imports o a);
     Calls.call_pep440_isValid := fun a =>
       Calls.Ok (@pep440_isValid Fixture.imports a);
     Calls.call_pep440_matches := fun v a =>
       Calls.Ok (@pep440_matches Fixture.imports v a) |}.





(** All the versions parse and the pattern of a regular-expression form
    compiles: the condition under which every call made with these
    collaborators returns. *)
Definition parses (a : string) : bool :=
  match Fixture.parse a with Some _ => true | None => false end.

Definition compiles (config : FilterConfig) : bool :=
  match Js.truthy_string (allowedVersions config) with
  | None => true
  | Some allowed =>
      negb (isRegexInclude allowed && unclosedGroup (Js.slice allowed 1 (-1)))
      && negb (isRegexExclude allowed && unclosedGroup (Js.slice allowed 2 (-1)))
  end.

(** Run from an empty cache and keep the outcome. *)
Definition run (config : FilterConfig) (fromVersion latestVersion : option string)
    (versions : list Release) : Calls.Result (list Release) :=
  snd (@Calls.filterVersions Fixture.imports collaborators config
         fromVersion latestVersion versions ∅).

End CallsFixture.

(* ===================================================================== *)
(** * Properties *)
(* ===================================================================== *)

(** ** JavaScript primitives *)

Lemma strict_eq_true (a b : option Z) : Js.strict_eq a b = true <-> a = b.
Proof.
  destruct a as [x|], b as [y|]; simpl; split; try congruence.
  - intros E. apply Z.eqb_eq in E. congruence.
  - intros E. inversion E. apply Z.eqb_refl.
Qed.

Lemma truthy_string_nonempty (o : option string) (s : string) :
  Js.truthy_string o = Some s <-> o = Some s /\ s <> EmptyString.
Proof.
  destruct o as [[|c t]|]; simpl; split; try congruence.
  - intros [E N]. inversion E. subst. congruence.
  - intros E. inversion E. split; congruence.
  - intros [E _]. exact E.
  - intros [E _]. congruence.
Qed.

Lemma truthy_string_falsy (o : option string) :
  Js.truthy_string o = None <-> o = None \/ o = Some EmptyString.
Proof.
  destruct o as [[|c t]|]; simpl; split; intros E; auto; try congruence.
  destruct E; congruence.
Qed.

Lemma escape_plain (s : string) :
  Js.plain s = true -> Js.escape s = s.
Proof.
  induction s as [|c t IH]; simpl; [reflexivity|].
  intros P. apply andb_prop in P. destruct P as [Pc Pt].
  rewrite (IH Pt). unfold Js.plain_char in Pc. unfold Js.escape_char.
  apply andb_prop in Pc. destruct Pc as [Pc P32].
  apply andb_prop in Pc. destruct Pc as [P34 P92].
  apply negb_true_iff in P34, P92, P32.
  rewrite P34, P92.
  assert (E : forall k : nat, (k < 32)%nat -> (nat_of_ascii c =? k)%nat = false).
  { intros k Hk. apply Nat.eqb_neq. apply Nat.ltb_ge in P32. lia. }
  rewrite (E 8%nat), (E 12%nat), (E 10%nat), (E 13%nat), (E 9%nat) by lia.
  rewrite P32. reflexivity.
Qed.

(** ** The monad *)

Section MonadFacts.
Context `{Imports}.

(** A callback that neither throws nor writes turns [filterM] into the
    plain [filter]. *)
Lemma filterM_pure {A} (f : A -> M.t bool) (g : A -> bool) (l : list A)
    (regexes : gmap string RegExp) :
  (forall x, In x l -> f x regexes = (regexes, Return (g x))) ->
  M.filterM f l regexes = (regexes, Return (List.filter g l)).
Proof.
  induction l as [|x l IH]; intros Hf; simpl; [reflexivity|].
  unfold M.bind. rewrite (Hf x (or_introl eq_refl)).
  rewrite IH by (intros y Hy; apply Hf; right; exact Hy).
  unfold M.ret. destruct (g x); reflexivity.
Qed.

(** Whatever the callback does, a returned list is a subsequence. *)
Lemma filterM_sublist {A} (f : A -> M.t bool) (l : list A) :
  forall regexes regexes' out,
    M.filterM f l regexes = (regexes', Return out) -> out `sublist_of` l.
Proof.
  induction l as [|x l IH]; simpl; intros regexes regexes' out E.
  - inversion E. constructor.
  - unfold M.bind in E.
    destruct (f x regexes) as [r1 [keep|e]]; [|discriminate].
    destruct (M.filterM f l r1) as [r2 [rest|e]] eqn:Er; [|discriminate].
    inversion E; subst. apply IH in Er.
    destruct keep; [apply sublist_skip | apply sublist_cons]; exact Er.
Qed.

End MonadFacts.

Lemma sublist_List_filter {A} (f : A -> bool) (l : list A) :
  List.filter f l `sublist_of` l.
Proof.
  induction l as [|x l IH]; simpl; [constructor|].
  destruct (f x); [apply sublist_skip | apply sublist_cons]; exact IH.
Qed.

Lemma sublist_In {A} (l k : list A) (x : A) :
  l `sublist_of` k -> In x l -> In x k.
Proof.
  intros S I. apply list_elem_of_In. apply list_elem_of_In in I.
  exact (sublist_subseteq _ _ S x I).
Qed.

(** ** The stages *)

Section StageFacts.
Context `{Imports}.

Lemma findRelease_some (versions : list Release) (wanted : string) (r : Release) :
  findRelease versions wanted = Some r -> In r versions /\ version r = wanted.
Proof.
  unfold findRelease. intros E. apply find_some in E.
  destruct E as [I E]. split; [exact I|]. apply String.eqb_eq. exact E.
Qed.

Lemma findRelease_In (versions : list Release) (v : Release) :
  In v versions -> exists r, findRelease versions (version v) = Some r.
Proof.
  intros I. unfold findRelease.
  destruct (List.find _ versions) as [r|] eqn:E; [eauto|].
  pose proof (find_none _ _ E v I) as N. simpl in N.
  rewrite String.eqb_refl in N. discriminate.
Qed.

(** With pairwise distinct versions the record found for a candidate is
    the candidate. *)
Lemma findRelease_unique (versions : list Release) (v : Release) :
  uniqueVersions versions -> In v versions ->
  findRelease versions (version v) = Some v.
Proof.
  unfold uniqueVersions, findRelease.
  induction versions as [|x l IH]; simpl; intros U I; [contradiction|].
  apply NoDup_cons in U. destruct U as [Nx U].
  destruct I as [->|I].
  - rewrite String.eqb_refl. reflexivity.
  - destruct (String.eqb (version x) (version v)) eqn:E.
    + apply String.eqb_eq in E. exfalso. apply Nx. rewrite E.
      apply list_elem_of_In. apply in_map. exact I.
    + apply IH; assumption.
Qed.

Lemma stageA_sublist (api : VersioningApi) (fromVersion : string)
    (versions : list Release) :
  stageA api fromVersion versions `sublist_of` versions.
Proof. apply sublist_List_filter. Qed.

Lemma stageA_In (api : VersioningApi) (fromVersion : string)
    (versions : list Release) (v : Release) :
  In v (stageA api fromVersion versions) <->
  In v versions /\ isGreaterThan api (version v) fromVersion = true.
Proof. unfold stageA. apply filter_In. Qed.

Lemma stageB_callback_listed (versions : list Release) (v : Release)
    (regexes : gmap string RegExp) :
  In v versions ->
  stageB_callback versions v regexes
  = (regexes, Return (negb (recordDeprecated versions v))).
Proof.
  intros I. unfold stageB_callback, recordDeprecated.
  destruct (findRelease_In versions v I) as [r ->].
  destruct (Js.truthy (isDeprecated r)); reflexivity.
Qed.

(** On candidates taken from [versions] the guard neither throws nor
    touches the cache. *)
Lemma stageB_returns (config : FilterConfig) (fromVersion : string)
    (versions filteredVersions : list Release) (regexes : gmap string RegExp) :
  (forall v, In v filteredVersions -> In v versions) ->
  stageB config fromVersion versions filteredVersions regexes
  = (regexes, Return (afterStageB config fromVersion versions filteredVersions)).
Proof.
  intros Sub. unfold stageB, afterStageB.
  destruct (stageB_guard config fromVersion versions); [|reflexivity].
  apply filterM_pure. intros v I. apply stageB_callback_listed. auto.
Qed.

Lemma afterStageB_sublist (config : FilterConfig) (fromVersion : string)
    (versions filteredVersions : list Release) :
  afterStageB config fromVersion versions filteredVersions
    `sublist_of` filteredVersions.
Proof.
  unfold afterStageB. destruct (stageB_guard _ _ _);
    [apply sublist_List_filter | reflexivity].
Qed.

(** The two regular-expression branches: the entry is stored, then read
    back for every candidate. *)
Lemma regex_branch (key pattern : string) (wrap : bool -> bool)
    (l : list Release) (regexes : gmap string RegExp) :
  let r := cachedOrCompiled regexes key pattern in
  (cacheRegex key pattern ;;;
   M.filterM (fun v => found <- testCached key (version v) ;;
                       M.ret (wrap found)) l) regexes
  = (<[key := r]> regexes,
     Return (List.filter (fun v => wrap (RegExp_test r (version v))) l)).
Proof.
  intros r. unfold M.bind at 1. unfold cacheRegex. fold r.
  apply filterM_pure. intros v _.
  unfold M.bind, testCached. rewrite lookup_insert_eq. reflexivity.
Qed.

Lemma regex_branch_plain (key pattern : string)
    (l : list Release) (regexes : gmap string RegExp) :
  let r := cachedOrCompiled regexes key pattern in
  (cacheRegex key pattern ;;;
   M.filterM (fun v => testCached key (version v)) l) regexes
  = (<[key := r]> regexes,
     Return (List.filter (fun v => RegExp_test r (version v)) l)).
Proof.
  intros r. unfold M.bind at 1. unfold cacheRegex. fold r.
  apply filterM_pure. intros v _.
  unfold testCached. rewrite lookup_insert_eq. reflexivity.
Qed.

Lemma cache_ok_empty : cache_ok ∅.
Proof. intros key r E. rewrite lookup_empty in E. discriminate. Qed.

Lemma cachedOrCompiled_include (regexes : gmap string RegExp) (key : string) :
  cache_ok regexes -> isRegexInclude key = true ->
  cachedOrCompiled regexes key (Js.slice key 1 (-1))
  = regEx (Js.slice key 1 (-1)).
Proof.
  intros Ok I. unfold cachedOrCompiled.
  destruct (regexes !! key) as [r|] eqn:E; [|reflexivity].
  destruct (Ok key r E) as [Hi _]. auto.
Qed.

Lemma cachedOrCompiled_exclude (regexes : gmap string RegExp) (key : string) :
  cache_ok regexes -> isRegexInclude key = false -> isRegexExclude key = true ->
  cachedOrCompiled regexes key (Js.slice key 2 (-1))
  = regEx (Js.slice key 2 (-1)).
Proof.
  intros Ok I X. unfold cachedOrCompiled.
  destruct (regexes !! key) as [r|] eqn:E; [|reflexivity].
  destruct (Ok key r E) as [_ Hx]. auto.
Qed.

Lemma cache_ok_insert (regexes : gmap string RegExp) (key : string) (r : RegExp) :
  cache_ok regexes ->
  (isRegexInclude key = true -> r = regEx (Js.slice key 1 (-1))) ->
  (isRegexInclude key = false -> isRegexExclude key = true ->
   r = regEx (Js.slice key 2 (-1))) ->
  cache_ok (<[key := r]> regexes).
Proof.
  intros Ok Hi Hx k r' E.
  destruct (decide (key = k)) as [->|N].
  - rewrite lookup_insert_eq in E. inversion E; subst. split; assumption.
  - rewrite lookup_insert_ne in E by exact N. exact (Ok k r' E).
Qed.

(** Stage C, run from any cache: it throws exactly when no strategy
    applies, and otherwise filters; from a well-formed cache the filter
    is that of the first applicable strategy and the cache stays
    well-formed. *)
Lemma stageC_cases (api : VersioningApi) (config : FilterConfig)
    (l : list Release) (regexes : gmap string RegExp) (allowed : string) :
  Js.truthy_string (allowedVersions config) = Some allowed ->
  match firstApplicable api config allowed with
  | None =>
      stageC api config l regexes
      = (regexes, Throw (ConfigError (invalidAllowedVersions allowed)))
  | Some s =>
      exists regexes' keep,
        stageC api config l regexes = (regexes', Return (List.filter keep l))
        /\ (cache_ok regexes ->
            cache_ok regexes'
            /\ List.filter keep l = List.filter (keeps api allowed s) l)
  end.
Proof.
  intros A. unfold stageC, firstApplicable, priority. rewrite A. simpl.
  destruct (isRegexInclude allowed) eqn:I.
  { rewrite regex_branch_plain. eexists _, _. split; [reflexivity|].
    intros Ok. rewrite (cachedOrCompiled_include _ _ Ok I).
    split; [|reflexivity].
    apply cache_ok_insert; [exact Ok|reflexivity|congruence]. }
  destruct (isRegexExclude allowed) eqn:X.
  { rewrite (regex_branch _ _ negb). eexists _, _. split; [reflexivity|].
    intros Ok. rewrite (cachedOrCompiled_exclude _ _ Ok I X).
    split; [|reflexivity].
    apply cache_ok_insert; [exact Ok|congruence|reflexivity]. }
  destruct (isValid api allowed).
  { eexists _, _. split; [reflexivity|]. intros Ok. split; [exact Ok|reflexivity]. }
  destruct (negb (String.eqb (versioning config) npmVersioning_id)
            && semver_validRange allowed).
  { eexists _, _. split; [reflexivity|]. intros Ok. split; [exact Ok|reflexivity]. }
  destruct (String.eqb (versioning config) poetryVersioning_id
            && pep440_isValid allowed).
  { eexists _, _. split; [reflexivity|]. intros Ok. split; [exact Ok|reflexivity]. }
  reflexivity.
Qed.

Lemma stageC_absent (api : VersioningApi) (config : FilterConfig)
    (l : list Release) (regexes : gmap string RegExp) :
  Js.truthy_string (allowedVersions config) = None ->
  stageC api config l regexes = (regexes, Return l).
Proof. intros A. unfold stageC. rewrite A. reflexivity. Qed.

Lemma stageC_sublist (api : VersioningApi) (config : FilterConfig)
    (l out : list Release) (regexes regexes' : gmap string RegExp) :
  stageC api config l regexes = (regexes', Return out) -> out `sublist_of` l.
Proof.
  intros E.
  destruct (Js.truthy_string (allowedVersions config)) as [allowed|] eqn:A.
  - pose proof (stageC_cases api config l regexes allowed A) as C.
    destruct (firstApplicable api config allowed).
    + destruct C as (r' & keep & C & _). rewrite C in E.
      inversion E. apply sublist_List_filter.
    + rewrite C in E. discriminate.
  - rewrite (stageC_absent _ _ _ _ A) in E. inversion E. reflexivity.
Qed.

Lemma stageC_refines (api : VersioningApi) (config : FilterConfig)
    (l : list Release) (regexes : gmap string RegExp) :
  cache_ok regexes ->
  snd (stageC api config l regexes) = stageC_spec api config l
  /\ cache_ok (fst (stageC api config l regexes)).
Proof.
  intros Ok. unfold stageC_spec.
  destruct (Js.truthy_string (allowedVersions config)) as [allowed|] eqn:A.
  - pose proof (stageC_cases api config l regexes allowed A) as C.
    destruct (firstApplicable api config allowed).
    + destruct C as (r' & keep & C & K). destruct (K Ok) as [Ok' E].
      rewrite C. simpl. rewrite E. split; [reflexivity|exact Ok'].
    + rewrite C. simpl. split; [reflexivity|exact Ok].
  - rewrite (stageC_absent _ _ _ _ A). simpl. split; [reflexivity|exact Ok].
Qed.

Lemma filterLatest_sublist (api : VersioningApi) (config : FilterConfig)
    (fromVersion : string) (latestVersion : option string) (l : list Release) :
  filterLatest api config fromVersion latestVersion l `sublist_of` l.
Proof.
  unfold filterLatest.
  destruct (Js.truthy_string latestVersion); [|reflexivity].
  destruct (Js.is_false (respectLatest config)); [reflexivity|].
  destruct (isGreaterThan api fromVersion s);
    [reflexivity | apply sublist_List_filter].
Qed.

Lemma stageD_sublist (api : VersioningApi) (config : FilterConfig)
    (fromVersion : string) (latestVersion : option string) (l : list Release) :
  stageD api config fromVersion latestVersion l `sublist_of` l.
Proof.
  unfold stageD.
  destruct (stageD_bypass config); [reflexivity|].
  destruct (negb (isVersionStable api fromVersion)).
  - apply sublist_List_filter.
  - etransitivity; [apply filterLatest_sublist | apply sublist_List_filter].
Qed.

Lemma isVersionStable_eq (api : VersioningApi) (v : string) :
  isVersionStable api v = isStable api v.
Proof. unfold isVersionStable. destruct (isStable api v); reflexivity. Qed.

(** Stages A to C: the deprecation guard always returns, so the result
    is that of stage C on what the guard leaves. *)
Lemma upToStageC_run (api : VersioningApi) (config : FilterConfig)
    (fromVersion : string) (versions : list Release)
    (regexes : gmap string RegExp) :
  upToStageC api config fromVersion versions regexes
  = stageC api config
      (afterStageB config fromVersion versions
         (stageA api fromVersion versions)) regexes.
Proof.
  unfold upToStageC, M.bind. rewrite stageB_returns; [reflexivity|].
  intros v I. apply stageA_In in I. tauto.
Qed.

Lemma upToStageC_sublist (api : VersioningApi) (config : FilterConfig)
    (fromVersion : string) (versions mid : list Release)
    (regexes regexes' : gmap string RegExp) :
  upToStageC api config fromVersion versions regexes = (regexes', Return mid) ->
  mid `sublist_of` stageA api fromVersion versions.
Proof.
  rewrite upToStageC_run. intros E. apply stageC_sublist in E.
  etransitivity; [exact E | apply afterStageB_sublist].
Qed.

(** The body once the scheme is resolved and the current version is
    truthy. *)
Lemma filterVersions_run (api : VersioningApi) (config : FilterConfig)
    (fromVersion latestVersion : option string) (current : string)
    (versions : list Release) (regexes : gmap string RegExp) :
  allVersioning_get (versioning config) = Return api ->
  Js.truthy_string fromVersion = Some current ->
  filterVersions config fromVersion latestVersion versions regexes
  = match upToStageC api config current versions regexes with
    | (regexes', Return mid) =>
        (regexes', Return (stageD api config current latestVersion mid))
    | (regexes', Throw e) => (regexes', Throw e)
    end.
Proof.
  intros G F. unfold filterVersions, M.bind, M.lift. rewrite G, F.
  destruct (upToStageC api config current versions regexes) as [r' [mid|e]];
    reflexivity.
Qed.

(** What a returning call went through. *)
Lemma filterVersions_returns (config : FilterConfig)
    (fromVersion latestVersion : option string) (versions out : list Release)
    (regexes regexes' : gmap string RegExp) :
  filterVersions config fromVersion latestVersion versions regexes
  = (regexes', Return out) ->
  exists api,
    allVersioning_get (versioning config) = Return api
    /\ ((Js.truthy_string fromVersion = None /\ out = [])
        \/ exists current mid,
             Js.truthy_string fromVersion = Some current
             /\ upToStageC api config current versions regexes
                = (regexes', Return mid)
             /\ out = stageD api config current latestVersion mid).
Proof.
  unfold filterVersions, M.bind, M.lift. intros E.
  destruct (allVersioning_get (versioning config)) as [api|e]; [|discriminate].
  exists api. split; [reflexivity|].
  destruct (Js.truthy_string fromVersion) as [current|].
  - right. exists current.
    destruct (upToStageC api config current versions regexes)
      as [r' [mid|e]]; [|discriminate].
    exists mid. inversion E; subst. auto.
  - left. inversion E. auto.
Qed.

End StageFacts.

(** ** The strategy chain *)

Section StrategyFacts.
Context `{Imports}.

Lemma firstApplicable_none (api : VersioningApi) (config : FilterConfig)
    (allowed : string) :
  firstApplicable api config allowed = None
  <-> forall s, applicable api config allowed s = false.
Proof.
  unfold firstApplicable. split.
  - intros E s. apply (find_none _ _ E).
    unfold priority. destruct s; simpl; tauto.
  - intros N. destruct (List.find _ priority) as [s|] eqn:E; [|reflexivity].
    apply find_some in E. destruct E as [_ E]. rewrite N in E. discriminate.
Qed.

(** The strategy found is applicable and nothing before it is. *)
Lemma firstApplicable_first (api : VersioningApi) (config : FilterConfig)
    (allowed : string) (s : Strategy) :
  firstApplicable api config allowed = Some s ->
  applicable api config allowed s = true
  /\ forall s', (rank s' < rank s)%nat -> applicable api config allowed s' = false.
Proof.
  unfold firstApplicable, priority. simpl.
  destruct (isRegexInclude allowed) eqn:E1.
  { intros E. inversion E; subst. split; [exact E1|].
    intros s'. destruct s'; simpl; lia. }
  destruct (isRegexExclude allowed) eqn:E2.
  { intros E. inversion E; subst. split; [exact E2|].
    intros s' L. destruct s'; simpl in *; (assumption || lia). }
  destruct (isValid api allowed) eqn:E3.
  { intros E. inversion E; subst. split; [exact E3|].
    intros s' L. destruct s'; simpl in *; (assumption || lia). }
  destruct (negb (String.eqb (versioning config) npmVersioning_id)
            && semver_validRange allowed) eqn:E4.
  { intros E. inversion E; subst. split; [exact E4|].
    intros s' L. destruct s'; simpl in *; (assumption || lia). }
  destruct (String.eqb (versioning config) poetryVersioning_id
            && pep440_isValid allowed) eqn:E5.
  { intros E. inversion E; subst. split; [exact E5|].
    intros s' L. destruct s'; simpl in *; (assumption || lia). }
  discriminate.
Qed.

End StrategyFacts.

(** ** The stated properties *)

Section Claims.
Context `{Imports}.

(** C1.  The sequence that [filterVersions] returns is a subsequence of
    the input candidates: its elements are input records, flags
    included, in the input's order; no version is synthesized. *)
Theorem filterVersions_subsequence (config : FilterConfig)
    (fromVersion latestVersion : option string) (versions out : list Release)
    (regexes regexes' : gmap string RegExp) :
  filterVersions config fromVersion latestVersion versions regexes
  = (regexes', Return out) ->
  out `sublist_of` versions
  /\ forall v, In v out ->
       exists r, In r versions
                 /\ version r = version v
                 /\ isDeprecated r = isDeprecated v.
Proof.
  intros E.
  assert (S : out `sublist_of` versions).
  { apply filterVersions_returns in E.
    destruct E as (api & _ & [[_ ->] | (current & mid & _ & U & ->)]).
    - apply sublist_nil_l.
    - apply upToStageC_sublist in U.
      etransitivity; [apply stageD_sublist|].
      etransitivity; [exact U | apply stageA_sublist]. }
  split; [exact S|].
  intros v I. exists v. split; [|split; reflexivity].
  exact (sublist_In _ _ _ S I).
Qed.

(** C2.  With a non-empty reference version, every element of the
    output is greater than the reference under the scheme's
    [isGreaterThan]; where the scheme does not rank the reference above
    itself, no output version is the reference. *)
Theorem filterVersions_above_reference (config : FilterConfig)
    (api : VersioningApi) (fromVersion latestVersion : option string)
    (current : string) (versions out : list Release)
    (regexes regexes' : gmap string RegExp) (v : Release) :
  allVersioning_get (versioning config) = Return api ->
  Js.truthy_string fromVersion = Some current ->
  filterVersions config fromVersion latestVersion versions regexes
  = (regexes', Return out) ->
  In v out ->
  isGreaterThan api (version v) current = true
  /\ (isGreaterThan api current current = false -> version v <> current).
Proof.
  intros G F E I.
  rewrite (filterVersions_run api _ _ _ current _ _ G F) in E.
  destruct (upToStageC api config current versions regexes)
    as [r' [mid|e]] eqn:U; [|discriminate].
  inversion E; subst. apply upToStageC_sublist in U.
  assert (A : In v (stageA api current versions)).
  { eapply sublist_In; [exact U|].
    eapply sublist_In; [apply stageD_sublist | exact I]. }
  apply stageA_In in A. destruct A as [_ A].
  split; [exact A|]. intros Irr Eq. rewrite Eq in A. congruence.
Qed.

(** Over the values: when the scheme lookup returns, an absent or empty
    reference version makes [filterVersions] return the empty sequence
    at once, the cache left as it was.  The same over calls that may throw
    is stated in the last part of the file. *)
Theorem filterVersions_empty_reference (config : FilterConfig)
    (api : VersioningApi) (fromVersion latestVersion : option string)
    (versions : list Release) (regexes : gmap string RegExp) :
  allVersioning_get (versioning config) = Return api ->
  fromVersion = None \/ fromVersion = Some EmptyString ->
  filterVersions config fromVersion latestVersion versions regexes
  = (regexes, Return []).
Proof.
  intros G F. apply truthy_string_falsy in F.
  unfold filterVersions, M.bind, M.lift. rewrite G, F. reflexivity.
Qed.

(** The lookup runs first: what it throws is thrown by the call, for
    every reference version. *)
Lemma filterVersions_lookup_throws (config : FilterConfig) (e : Thrown)
    (fromVersion latestVersion : option string)
    (versions : list Release) (regexes : gmap string RegExp) :
  allVersioning_get (versioning config) = Throw e ->
  filterVersions config fromVersion latestVersion versions regexes
  = (regexes, Throw e).
Proof.
  intros G. unfold filterVersions, M.bind, M.lift. rewrite G. reflexivity.
Qed.

(** Over the values, that is, for collaborators that return: with a
    non-empty reference version and a non-empty [allowedVersions], the
    call throws the invalid-[allowedVersions] error exactly when none of
    the five strategies applies, and nothing else.  The same over calls
    that may throw is stated in the last part of the file. *)
Theorem filterVersions_invalid_allowedVersions (config : FilterConfig)
    (api : VersioningApi) (fromVersion latestVersion : option string)
    (current allowed : string) (versions : list Release)
    (regexes : gmap string RegExp) :
  allVersioning_get (versioning config) = Return api ->
  Js.truthy_string fromVersion = Some current ->
  Js.truthy_string (allowedVersions config) = Some allowed ->
  ((exists e,
      snd (filterVersions config fromVersion latestVersion versions regexes)
      = Throw (ConfigError e))
   <-> forall s, applicable api config allowed s = false)
  /\ (forall e,
        snd (filterVersions config fromVersion latestVersion versions regexes)
        = Throw e ->
        e = ConfigError (invalidAllowedVersions allowed))
  /\ message (invalidAllowedVersions allowed) = CONFIG_VALIDATION
  /\ Js.includes (validationError (invalidAllowedVersions allowed))
                 "allowedVersions" = true
  /\ validationMessage (invalidAllowedVersions allowed)
     = "The following allowedVersions does not parse as a valid version or range: "
       +:+ Js.JSON_stringify allowed
  /\ (Js.plain allowed = true ->
      Js.JSON_stringify allowed
      = String Js.dquote (allowed +:+ String Js.dquote EmptyString)).
Proof.
  intros G F A.
  rewrite (filterVersions_run api _ _ _ current _ _ G F).
  rewrite upToStageC_run.
  pose proof (stageC_cases api config
                (afterStageB config current versions
                   (stageA api current versions)) regexes allowed A) as C.
  rewrite <- firstApplicable_none.
  destruct (firstApplicable api config allowed) as [s|].
  - destruct C as (r' & keep & -> & _). simpl.
    repeat split; try reflexivity; try discriminate.
    + intros [e E]. discriminate.
    + intros P. unfold Js.JSON_stringify. rewrite (escape_plain _ P).
      reflexivity.
  - rewrite C. simpl.
    repeat split; try reflexivity.
    + eauto.
    + intros e E. inversion E. reflexivity.
    + intros P. unfold Js.JSON_stringify. rewrite (escape_plain _ P).
      reflexivity.
Qed.

(** C5.  From a well-formed cache, the allowed-set stage is the ordered
    strategy chain of the specification: the first applicable strategy,
    in the order regex-include, regex-exclude, native range, generic
    fallback, scheme fallback, is the one applied, and nothing before it
    applies.  In particular an expression of the form [/.../] is matched
    as a regular expression whatever the scheme's [isValid] says
    about it. *)
Theorem stageC_first_applicable (api : VersioningApi) (config : FilterConfig)
    (filteredVersions : list Release) (regexes : gmap string RegExp) :
  cache_ok regexes ->
  snd (stageC api config filteredVersions regexes)
  = stageC_spec api config filteredVersions
  /\ (forall allowed s,
        Js.truthy_string (allowedVersions config) = Some allowed ->
        firstApplicable api config allowed = Some s ->
        snd (stageC api config filteredVersions regexes)
        = Return (List.filter (keeps api allowed s) filteredVersions)
        /\ applicable api config allowed s = true
        /\ forall s', (rank s' < rank s)%nat ->
                      applicable api config allowed s' = false)
  /\ (forall allowed,
        Js.truthy_string (allowedVersions config) = Some allowed ->
        isRegexInclude allowed = true ->
        snd (stageC api config filteredVersions regexes)
        = Return (List.filter
                    (fun v => RegExp_test (regEx (Js.slice allowed 1 (-1)))
                                          (version v))
                    filteredVersions)).
Proof.
  intros Ok.
  destruct (stageC_refines api config filteredVersions regexes Ok) as [R _].
  split; [exact R|]. split.
  - intros allowed s A Fs. rewrite R. unfold stageC_spec. rewrite A, Fs.
    split; [reflexivity|]. apply firstApplicable_first. exact Fs.
  - intros allowed A I. rewrite R. unfold stageC_spec. rewrite A.
    unfold firstApplicable, priority. simpl. rewrite I. reflexivity.
Qed.

(** The cache stays well-formed across calls, whatever the outcome. *)
Lemma filterVersions_cache_ok (config : FilterConfig)
    (fromVersion latestVersion : option string) (versions : list Release)
    (regexes : gmap string RegExp) :
  cache_ok regexes ->
  cache_ok (fst (filterVersions config fromVersion latestVersion versions
                                regexes)).
Proof.
  intros Ok. unfold filterVersions, M.bind, M.lift.
  destruct (allVersioning_get (versioning config)) as [api|e]; [|exact Ok].
  destruct (Js.truthy_string fromVersion) as [current|]; [|exact Ok].
  rewrite upToStageC_run.
  pose proof (stageC_refines api config
                (afterStageB config current versions
                   (stageA api current versions)) regexes Ok) as [_ Ok'].
  destruct (stageC api config _ regexes) as [r' [mid|e]]; exact Ok'.
Qed.

(** C6.  Past the bypass test: for an unstable reference the call
    returns the candidates that are stable or share the reference's
    (major, minor, patch) triple, and neither [latestVersion] nor
    [respectLatest] enters the result; for a stable reference the
    unstable candidates are removed and only what remains is handed to
    the latest-version ceiling. *)
Theorem filterVersions_stability (config : FilterConfig)
    (api : VersioningApi) (fromVersion latestVersion : option string)
    (current : string) (versions mid : list Release)
    (regexes regexes' : gmap string RegExp) :
  allVersioning_get (versioning config) = Return api ->
  Js.truthy_string fromVersion = Some current ->
  upToStageC api config current versions regexes = (regexes', Return mid) ->
  stageD_bypass config = false ->
  (isStable api current = false ->
   exists out,
     filterVersions config fromVersion latestVersion versions regexes
     = (regexes', Return out)
     /\ out `sublist_of` mid
     /\ forall v, In v mid ->
          (In v out <-> isStable api (version v) = true
                        \/ triple api (version v) = triple api current))
  /\ (isStable api current = true ->
      exists stable,
        filterVersions config fromVersion latestVersion versions regexes
        = (regexes',
           Return (filterLatest api config current latestVersion stable))
        /\ stable `sublist_of` mid
        /\ forall v, In v stable <->
                     In v mid /\ isStable api (version v) = true).
Proof.
  intros G F U B.
  rewrite (filterVersions_run api _ _ _ current _ _ G F), U.
  unfold stageD. rewrite B, isVersionStable_eq. split; intros S; rewrite S; simpl.
  - exists (unstableBranch api current mid).
    split; [reflexivity|]. split; [apply sublist_List_filter|].
    intros v I. unfold unstableBranch. rewrite filter_In, isVersionStable_eq.
    rewrite orb_true_iff. unfold sameRelease, triple.
    rewrite !andb_true_iff, !strict_eq_true.
    split.
    + intros [_ [St|[[Ma Mi] Pa]]]; [left; exact St|right; congruence].
    + intros [St|T]; (split; [exact I|]); [left; exact St|right].
      inversion T. auto.
  - exists (removeUnstable api mid).
    split; [reflexivity|]. split; [apply sublist_List_filter|].
    intros v. unfold removeUnstable. rewrite filter_In, isVersionStable_eq.
    reflexivity.
Qed.

(** C7.  At the ceiling (stable reference, [latestVersion] truthy,
    [respectLatest] not [false]): a reference greater than
    [latestVersion] leaves every stable candidate in place; otherwise a
    stable candidate is removed exactly when it is greater than
    [latestVersion], so that a candidate whose version is
    [latestVersion] stays when the scheme does not rank
    [latestVersion] above itself. *)
Theorem filterVersions_latest_ceiling (config : FilterConfig)
    (api : VersioningApi) (fromVersion latestVersion : option string)
    (current latest : string) (versions mid : list Release)
    (regexes regexes' : gmap string RegExp) :
  allVersioning_get (versioning config) = Return api ->
  Js.truthy_string fromVersion = Some current ->
  upToStageC api config current versions regexes = (regexes', Return mid) ->
  stageD_bypass config = false ->
  isStable api current = true ->
  Js.truthy_string latestVersion = Some latest ->
  respectLatest config <> Some false ->
  exists out,
    filterVersions config fromVersion latestVersion versions regexes
    = (regexes', Return out)
    /\ (isGreaterThan api current latest = true ->
        out = removeUnstable api mid)
    /\ (isGreaterThan api current latest = false ->
        out `sublist_of` removeUnstable api mid
        /\ forall v, In v (removeUnstable api mid) ->
             (~ In v out <-> isGreaterThan api (version v) latest = true)
             /\ (version v = latest ->
                 isGreaterThan api latest latest = false -> In v out)).
Proof.
  intros G F U B S L R.
  rewrite (filterVersions_run api _ _ _ current _ _ G F), U.
  unfold stageD. rewrite B, isVersionStable_eq, S. simpl.
  unfold filterLatest. rewrite L.
  assert (R' : Js.is_false (respectLatest config) = false).
  { destruct (respectLatest config) as [[|]|]; simpl; congruence. }
  rewrite R'. eexists. split; [reflexivity|].
  split; intros Gt; rewrite Gt; [reflexivity|].
  split; [apply sublist_List_filter|].
  intros v I. rewrite filter_In, negb_true_iff. split.
  - destruct (isGreaterThan api (version v) latest); split; intros X;
      try reflexivity; try discriminate.
    + intros [_ Y]. discriminate.
    + exfalso. apply X. split; [exact I|reflexivity].
  - intros E Irr. rewrite E. split; [exact I|exact Irr].
Qed.

(** C8.  With a non-empty reference version, a truthy [followTag] or an
    [ignoreUnstable] that is [false] makes the call return what stage C
    left: same outcome, same cache, for every [latestVersion] and
    [respectLatest]. *)
Theorem filterVersions_bypass (config : FilterConfig)
    (api : VersioningApi) (fromVersion latestVersion : option string)
    (current : string) (versions : list Release)
    (regexes : gmap string RegExp) :
  allVersioning_get (versioning config) = Return api ->
  Js.truthy_string fromVersion = Some current ->
  (exists tag, followTag config = Some tag /\ tag <> EmptyString)
  \/ ignoreUnstable config = Some false ->
  filterVersions config fromVersion latestVersion versions regexes
  = upToStageC api config current versions regexes.
Proof.
  intros G F O.
  assert (B : stageD_bypass config = true).
  { unfold stageD_bypass. destruct O as [(tag & T & N) | O].
    - assert (T' : Js.truthy_string (followTag config) = Some tag)
        by (apply truthy_string_nonempty; auto).
      rewrite T'. reflexivity.
    - rewrite O. destruct (Js.truthy_string (followTag config)); reflexivity. }
  rewrite (filterVersions_run api _ _ _ current _ _ G F).
  destruct (upToStageC api config current versions regexes) as [r' [mid|e]];
    [|reflexivity].
  unfold stageD. rewrite B. reflexivity.
Qed.

(** C9.  The deprecation guard, run on the survivors of stage A,
    returns, and removes a survivor exactly when [ignoreDeprecated] is
    [true], a record is found under the reference version in the
    original sequence, that record is not deprecated, and the record
    found under the survivor's version is deprecated.  With pairwise
    distinct versions that last record is the survivor itself.  When the
    reference's record is deprecated nothing is removed. *)
Theorem stageB_removes_iff (config : FilterConfig) (api : VersioningApi)
    (fromVersion : string) (versions : list Release)
    (regexes : gmap string RegExp) :
  exists out,
    stageB config fromVersion versions (stageA api fromVersion versions)
           regexes
    = (regexes, Return out)
    /\ out `sublist_of` stageA api fromVersion versions
    /\ (forall v, In v (stageA api fromVersion versions) ->
         (~ In v out
          <-> ignoreDeprecated config = Some true
              /\ exists fromRelease versionRelease,
                   findRelease versions fromVersion = Some fromRelease
                   /\ isDeprecated fromRelease <> Some true
                   /\ findRelease versions (version v) = Some versionRelease
                   /\ isDeprecated versionRelease = Some true))
    /\ (uniqueVersions versions ->
        forall v, In v (stageA api fromVersion versions) ->
          (~ In v out
           <-> ignoreDeprecated config = Some true
               /\ (exists fromRelease,
                     In fromRelease versions
                     /\ version fromRelease = fromVersion
                     /\ isDeprecated fromRelease <> Some true)
               /\ isDeprecated v = Some true))
    /\ (forall fromRelease,
          findRelease versions fromVersion = Some fromRelease ->
          isDeprecated fromRelease = Some true ->
          out = stageA api fromVersion versions).
Proof.
  set (survivors := stageA api fromVersion versions).
  assert (Sub : forall v, In v survivors -> In v versions).
  { intros v I. apply stageA_In in I. tauto. }
  exists (afterStageB config fromVersion versions survivors).
  split; [apply stageB_returns; exact Sub|].
  split; [apply afterStageB_sublist|].
  assert (Gen : forall v, In v survivors ->
    (~ In v (afterStageB config fromVersion versions survivors)
     <-> ignoreDeprecated config = Some true
         /\ exists fromRelease versionRelease,
              findRelease versions fromVersion = Some fromRelease
              /\ isDeprecated fromRelease <> Some true
              /\ findRelease versions (version v) = Some versionRelease
              /\ isDeprecated versionRelease = Some true)).
  { intros v I. unfold afterStageB, stageB_guard.
    destruct (findRelease_In versions v (Sub v I)) as [vr Ev].
    assert (Rd : recordDeprecated versions v = Js.truthy (isDeprecated vr))
      by (unfold recordDeprecated; rewrite Ev; reflexivity).
    destruct (ignoreDeprecated config) as [[|]|]; simpl;
      try (split; [intros N; contradiction | intros [X _]; discriminate]).
    destruct (findRelease versions fromVersion) as [fr|];
      [|split; [intros N; contradiction
               | intros (_ & fr & ? & X & _); discriminate]].
    destruct (isDeprecated fr) as [[|]|] eqn:Df; simpl;
      try (split; [intros N; contradiction
                  | intros (_ & fr' & ? & X & Y & _);
                    inversion X; subst; congruence]).
    - rewrite filter_In, Rd.
      destruct (isDeprecated vr) as [[|]|] eqn:Dv; simpl; split;
        try (intros N; exfalso; apply N; split; [exact I|reflexivity]);
        try (intros (_ & fr' & vr' & _ & _ & X & Y);
             rewrite Ev in X; inversion X; subst; congruence).
      + intros _. split; [reflexivity|].
        exists fr, vr. rewrite Df. repeat split; congruence.
      + intros _ [_ X]. discriminate.
    - rewrite filter_In, Rd.
      destruct (isDeprecated vr) as [[|]|] eqn:Dv; simpl; split;
        try (intros N; exfalso; apply N; split; [exact I|reflexivity]);
        try (intros (_ & fr' & vr' & _ & _ & X & Y);
             rewrite Ev in X; inversion X; subst; congruence).
      + intros _. split; [reflexivity|].
        exists fr, vr. rewrite Df. repeat split; congruence.
      + intros _ [_ X]. discriminate. }
  split; [exact Gen|]. split.
  - intros U v I. rewrite (Gen v I). split.
    + intros (Ig & fr & vr & Ef & Df & Ev & Dv).
      rewrite (findRelease_unique versions v U (Sub v I)) in Ev.
      inversion Ev; subst.
      apply findRelease_some in Ef. destruct Ef as [If Vf].
      split; [exact Ig|]. split; [exists fr; auto|exact Dv].
    + intros (Ig & (fr & If & Vf & Df) & Dv).
      split; [exact Ig|]. exists fr, v.
      rewrite <- Vf.
      rewrite (findRelease_unique versions fr U If).
      rewrite (findRelease_unique versions v U (Sub v I)). auto.
  - intros fr Ef Df. unfold afterStageB, stageB_guard.
    rewrite Ef, Df. simpl. rewrite andb_false_r. reflexivity.
Qed.

(** C10.  Every survivor of stage A is an element of the original
    sequence, so the lookup of its record by version finds one, the
    read of [isDeprecated] is never on [undefined], and the deprecation
    guard returns without throwing and without touching the cache. *)
Theorem stageB_lookup_succeeds (config : FilterConfig) (api : VersioningApi)
    (fromVersion : string) (versions : list Release)
    (regexes : gmap string RegExp) :
  Forall (fun v => In v versions
                   /\ exists versionRelease,
                        findRelease versions (version v) = Some versionRelease
                        /\ stageB_callback versions v regexes
                           = (regexes,
                              Return (negb (Js.truthy
                                             (isDeprecated versionRelease)))))
         (stageA api fromVersion versions)
  /\ exists out,
       stageB config fromVersion versions (stageA api fromVersion versions)
              regexes
       = (regexes, Return out).
Proof.
  split.
  - apply List.Forall_forall. intros v I. apply stageA_In in I.
    destruct I as [I _]. split; [exact I|].
    destruct (findRelease_In versions v I) as [vr E]. exists vr.
    split; [exact E|]. unfold stageB_callback. rewrite E.
    destruct (Js.truthy (isDeprecated vr)); reflexivity.
  - eexists. apply stageB_returns. intros v I. apply stageA_In in I. tauto.
Qed.

(** Over the values, that is, for collaborators that return: nothing
    but a failed scheme lookup and the invalid-[allowedVersions] error is
    thrown.  The same over calls that may throw is stated in the last part
    of the file. *)
Lemma filterVersions_throws_only (config : FilterConfig)
    (fromVersion latestVersion : option string) (versions : list Release)
    (regexes : gmap string RegExp) (e : Thrown) :
  snd (filterVersions config fromVersion latestVersion versions regexes)
  = Throw e ->
  allVersioning_get (versioning config) = Throw e
  \/ exists allowed,
       Js.truthy_string (allowedVersions config) = Some allowed
       /\ e = ConfigError (invalidAllowedVersions allowed).
Proof.
  unfold filterVersions, M.bind, M.lift.
  destruct (allVersioning_get (versioning config)) as [api|e'];
    [|simpl; intros E; left; congruence].
  destruct (Js.truthy_string fromVersion) as [current|]; [|discriminate].
  rewrite upToStageC_run. intros E. right.
  set (l := afterStageB config current versions (stageA api current versions))
    in E.
  destruct (Js.truthy_string (allowedVersions config)) as [allowed|] eqn:A.
  - exists allowed. split; [reflexivity|].
    pose proof (stageC_cases api config l regexes allowed A) as C.
    destruct (firstApplicable api config allowed).
    + destruct C as (r' & keep & C & _). rewrite C in E. discriminate.
    + rewrite C in E. simpl in E. congruence.
  - rewrite (stageC_absent _ _ _ _ A) in E. discriminate.
Qed.

End Claims.

(** ** The function on concrete inputs *)

Section Runs.
#[local] Existing Instance Fixture.imports.

(** Basic upgrade set: the pre-release goes, the version equal to
    [latestVersion] stays. *)
Example run_basic_upgrade :
  Fixture.run (Fixture.policy "semver") (Some "1.0.0") (Some "2.0.0")
              Fixture.basicCandidates
  = Return [Fixture.release "1.1.0"; Fixture.release "2.0.0"].
Proof. reflexivity. Qed.

(** Unstable reference: pre-releases of the same release stay. *)
Example run_unstable_reference :
  Fixture.run (Fixture.policy "semver") (Some "1.2.0-beta.1") None
              Fixture.prereleaseCandidates
  = Return [Fixture.release "1.2.0-beta.2"; Fixture.release "1.2.0"].
Proof. reflexivity. Qed.

Example run_invalid_allowedVersions :
  Fixture.run (Fixture.allowing "semver" "not-a-range!!") (Some "1.0.0") None
              Fixture.basicCandidates
  = Throw (ConfigError (invalidAllowedVersions "not-a-range!!")).
Proof. reflexivity. Qed.

Example run_regex_exclude :
  Fixture.run (Fixture.allowing "semver" "!/beta/") (Some "1.0.0") None
              Fixture.betaCandidates
  = Return [Fixture.release "1.1.0"].
Proof. reflexivity. Qed.

(** The reference is past [latestVersion]: no ceiling. *)
Example run_ahead_of_latest :
  Fixture.run (Fixture.policy "semver") (Some "2.0.0") (Some "1.1.0")
              Fixture.aheadCandidates
  = Return [Fixture.release "2.1.0"].
Proof. reflexivity. Qed.

(** The pypi fallback is reached for the [poetry] scheme only. *)
Example run_poetry_fallback :
  Fixture.run (Fixture.allowing "poetry" "==1.1.0") (Some "1.0.0") None
              Fixture.basicCandidates
  = Return [Fixture.release "1.1.0"]
  /\ Fixture.run (Fixture.allowing "semver" "==1.1.0") (Some "1.0.0") None
                 Fixture.basicCandidates
     = Throw (ConfigError (invalidAllowedVersions "==1.1.0")).
Proof. split; reflexivity. Qed.

(** With a repeated version the first record under it decides: the
    deprecated second record of [2.0.0] stays, [3.0.0] goes. *)
Example run_repeated_version :
  Fixture.run (Fixture.avoidingDeprecated "semver") (Some "1.0.0") None
              Fixture.repeatedCandidates
  = Return [Fixture.release "2.0.0"; Fixture.deprecated "2.0.0"].
Proof. reflexivity. Qed.

(** The second call finds the compiled pattern in the cache. *)
Example run_twice_same_outcome :
  let first := filterVersions (Fixture.allowing "semver" "!/beta/")
                 (Some "1.0.0") None Fixture.betaCandidates ∅ in
  fst first !! "!/beta/" = Some (regEx "beta")
  /\ filterVersions (Fixture.allowing "semver" "!/beta/")
       (Some "1.0.0") None Fixture.betaCandidates (fst first)
     = first.
Proof. split; reflexivity. Qed.

Example JSON_stringify_escapes :
  Js.JSON_stringify (String "a" (String Js.dquote (String "b" EmptyString)))
  = String Js.dquote
      (String "a" (String Js.backslash (String Js.dquote
        (String "b" (String Js.dquote EmptyString))))).
Proof. reflexivity. Qed.

End Runs.

(** ** The properties at concrete inputs *)

Section Witnesses.
#[local] Existing Instance Fixture.imports.

Lemma filterVersions_subsequence_witness :
  filterVersions (Fixture.policy "semver") (Some "1.0.0") (Some "2.0.0")
                 Fixture.basicCandidates ∅
  = (∅, Return [Fixture.release "1.1.0"; Fixture.release "2.0.0"])
  /\ [Fixture.release "1.1.0"; Fixture.release "2.0.0"]
       `sublist_of` Fixture.basicCandidates.
Proof.
  split; [reflexivity|].
  apply (filterVersions_subsequence (Fixture.policy "semver")
           (Some "1.0.0") (Some "2.0.0") Fixture.basicCandidates
           [Fixture.release "1.1.0"; Fixture.release "2.0.0"] ∅ ∅).
  reflexivity.
Defined.

Lemma filterVersions_above_reference_witness :
  In (Fixture.release "2.0.0")
     [Fixture.release "1.1.0"; Fixture.release "2.0.0"]
  /\ isGreaterThan Fixture.semverApi "2.0.0" "1.0.0" = true.
Proof.
  split; [simpl; auto|].
  apply (filterVersions_above_reference (Fixture.policy "semver")
           Fixture.semverApi (Some "1.0.0") (Some "2.0.0") "1.0.0"
           Fixture.basicCandidates
           [Fixture.release "1.1.0"; Fixture.release "2.0.0"] ∅ ∅
           (Fixture.release "2.0.0")).
  - reflexivity.
  - reflexivity.
  - reflexivity.
  - simpl; auto.
Defined.

Lemma filterVersions_empty_reference_witness :
  filterVersions (Fixture.policy "semver") (Some EmptyString) (Some "2.0.0")
                 Fixture.basicCandidates ∅
  = (∅, Return []).
Proof.
  apply (filterVersions_empty_reference (Fixture.policy "semver")
           Fixture.semverApi).
  - reflexivity.
  - right; reflexivity.
Defined.

Lemma filterVersions_invalid_allowedVersions_witness :
  (forall s, applicable Fixture.semverApi
               (Fixture.allowing "semver" "not-a-range!!")
               "not-a-range!!" s = false)
  /\ exists e,
       snd (filterVersions (Fixture.allowing "semver" "not-a-range!!")
              (Some "1.0.0") None Fixture.basicCandidates ∅)
       = Throw (ConfigError e).
Proof.
  assert (N : forall s, applicable Fixture.semverApi
                (Fixture.allowing "semver" "not-a-range!!")
                "not-a-range!!" s = false)
    by (intros s; destruct s; reflexivity).
  split; [exact N|].
  destruct (filterVersions_invalid_allowedVersions
              (Fixture.allowing "semver" "not-a-range!!")
              Fixture.semverApi (Some "1.0.0") None
              "1.0.0" "not-a-range!!" Fixture.basicCandidates ∅)
    as [Iff _]; [reflexivity | reflexivity | reflexivity |].
  apply Iff. exact N.
Defined.

(** [/beta/] under a scheme that takes every expression for a range:
    the regular expression decides. *)
Lemma stageC_first_applicable_witness :
  isValid Fixture.permissiveApi "/beta/" = true
  /\ snd (stageC Fixture.permissiveApi
            (Fixture.allowing "permissive" "/beta/")
            Fixture.betaCandidates ∅)
     = Return [Fixture.release "1.1.0-beta.1"].
Proof.
  split; [reflexivity|].
  destruct (stageC_first_applicable Fixture.permissiveApi
              (Fixture.allowing "permissive" "/beta/")
              Fixture.betaCandidates ∅ cache_ok_empty)
    as (_ & _ & Regex).
  apply (Regex "/beta/"); reflexivity.
Defined.

Lemma filterVersions_stability_witness :
  isStable Fixture.semverApi "1.2.0-beta.1" = false
  /\ exists out,
       filterVersions (Fixture.policy "semver") (Some "1.2.0-beta.1")
                      (Some "1.0.0") Fixture.prereleaseCandidates ∅
       = (∅, Return out)
       /\ out `sublist_of` Fixture.prereleaseCandidates
       /\ forall v, In v Fixture.prereleaseCandidates ->
            (In v out <-> isStable Fixture.semverApi (version v) = true
                          \/ triple Fixture.semverApi (version v)
                             = triple Fixture.semverApi "1.2.0-beta.1").
Proof.
  split; [reflexivity|].
  destruct (filterVersions_stability (Fixture.policy "semver")
              Fixture.semverApi (Some "1.2.0-beta.1") (Some "1.0.0")
              "1.2.0-beta.1" Fixture.prereleaseCandidates
              Fixture.prereleaseCandidates ∅ ∅)
    as [Unstable _];
    [reflexivity | reflexivity | reflexivity | reflexivity |].
  apply Unstable. reflexivity.
Defined.

Lemma filterVersions_latest_ceiling_witness :
  isGreaterThan Fixture.semverApi "1.0.0" "2.0.0" = false
  /\ exists out,
       filterVersions (Fixture.policy "semver") (Some "1.0.0") (Some "2.0.0")
                      Fixture.aheadCandidates ∅
       = (∅, Return out)
       /\ (isGreaterThan Fixture.semverApi "1.0.0" "2.0.0" = true ->
           out = removeUnstable Fixture.semverApi Fixture.aheadCandidates)
       /\ (isGreaterThan Fixture.semverApi "1.0.0" "2.0.0" = false ->
           out `sublist_of`
             removeUnstable Fixture.semverApi Fixture.aheadCandidates
           /\ forall v,
                In v (removeUnstable Fixture.semverApi
                        Fixture.aheadCandidates) ->
                (~ In v out
                 <-> isGreaterThan Fixture.semverApi (version v) "2.0.0"
                     = true)
                /\ (version v = "2.0.0" ->
                    isGreaterThan Fixture.semverApi "2.0.0" "2.0.0" = false ->
                    In v out)).
Proof.
  split; [reflexivity|].
  apply (filterVersions_latest_ceiling (Fixture.policy "semver")
           Fixture.semverApi (Some "1.0.0") (Some "2.0.0")
           "1.0.0" "2.0.0" Fixture.aheadCandidates
           Fixture.aheadCandidates ∅ ∅).
  - reflexivity.
  - reflexivity.
  - reflexivity.
  - reflexivity.
  - reflexivity.
  - reflexivity.
  - simpl. discriminate.
Defined.

Lemma filterVersions_bypass_witness :
  filterVersions (Fixture.keepingUnstable "semver") (Some "1.0.0")
                 (Some "2.0.0") Fixture.aheadCandidates ∅
  = upToStageC Fixture.semverApi (Fixture.keepingUnstable "semver")
               "1.0.0" Fixture.aheadCandidates ∅.
Proof.
  apply (filterVersions_bypass (Fixture.keepingUnstable "semver")
           Fixture.semverApi (Some "1.0.0") (Some "2.0.0") "1.0.0").
  - reflexivity.
  - reflexivity.
  - right. reflexivity.
Defined.

End Witnesses.

(* ===================================================================== *)
(** * Further properties of [filterVersions] *)
(* ===================================================================== *)

(** ** The two regular-expression wrappers *)

Lemma substring_app_skip (p q : string) (n : nat) :
  String.substring (String.length p) n (p +:+ q) = String.substring 0 n q.
Proof. induction p as [|c p IH]; simpl; [reflexivity | exact IH]. Qed.

Lemma substring_app_take (p q : string) :
  String.substring 0 (String.length p) (p +:+ q) = p.
Proof.
  induction p as [|c p IH]; simpl.
  - destruct q; reflexivity.
  - rewrite IH. reflexivity.
Qed.

Lemma length_app (p q : string) :
  String.length (p +:+ q) = (String.length p + String.length q)%nat.
Proof. induction p as [|c p IH]; simpl; [reflexivity | rewrite IH; reflexivity]. Qed.

Lemma endsWith_slash_app (p : string) : Js.endsWith (p +:+ "/") "/" = true.
Proof.
  unfold Js.endsWith. rewrite length_app. apply andb_true_iff. split.
  - apply Nat.leb_le. simpl. lia.
  - change (String.length "/") with 1%nat.
    replace (String.length p + 1 - 1)%nat with (String.length p) by lia.
    rewrite substring_app_skip. reflexivity.
Qed.

Lemma endsWith_slash_cons (c : ascii) (t : string) :
  t <> EmptyString ->
  Js.endsWith (String c t) "/" = Js.endsWith t "/".
Proof.
  intros N. destruct t as [|d u]; [congruence|].
  unfold Js.endsWith. simpl String.length.
  replace (S (S (String.length u)) - 1)%nat with (S (String.length u)) by lia.
  replace (S (String.length u) - 1)%nat with (String.length u) by lia.
  reflexivity.
Qed.

Lemma endsWith_slash_inv (s : string) :
  Js.endsWith s "/" = true -> exists p, s = p +:+ "/".
Proof.
  induction s as [|c t IH]; intros E.
  - discriminate.
  - destruct t as [|d u].
    + unfold Js.endsWith in E. simpl in E.
      destruct (Ascii.eqb c "/") eqn:Ec; [|discriminate].
      apply Ascii.eqb_eq in Ec. subst c. exists EmptyString. reflexivity.
    + rewrite endsWith_slash_cons in E by discriminate.
      destruct (IH E) as [p Ep]. exists (String c p).
      rewrite Ep. reflexivity.
Qed.

Lemma prefix_cons (a b : ascii) (s t : string) :
  String.prefix (String a s) (String b t)
  = if ascii_dec a b then String.prefix s t else false.
Proof. reflexivity. Qed.

Lemma prefix_nil_l (s : string) : String.prefix EmptyString s = true.
Proof. destruct s; reflexivity. Qed.

Lemma prefix_nil_r (a : ascii) (s : string) :
  String.prefix (String a s) EmptyString = false.
Proof. reflexivity. Qed.

Lemma prefix_slash_inv (a : string) :
  String.prefix "/" a = true -> exists t, a = String "/" t.
Proof.
  destruct a as [|c t]; [rewrite prefix_nil_r; discriminate|].
  rewrite prefix_cons.
  destruct (ascii_dec "/" c) as [<-|]; [eauto | discriminate].
Qed.

Section Wrappers.
Context `{Imports}.

Lemma includeRegex_form (allowed : string) :
  (isRegexInclude allowed = true <-> exists pattern, allowed = includeRegex pattern)
  /\ forall pattern, allowed = includeRegex pattern ->
       Js.slice allowed 1 (-1) = pattern.
Proof.
  split; [split|].
  - unfold isRegexInclude. intros E.
    apply andb_prop in E. destruct E as [E En].
    apply andb_prop in E. destruct E as [El Es].
    destruct (prefix_slash_inv _ Es) as [t ->].
    assert (N : t <> EmptyString).
    { intros ->. unfold Js.length in El. simpl in El. discriminate. }
    rewrite endsWith_slash_cons in En by exact N.
    destruct (endsWith_slash_inv _ En) as [p ->].
    exists p. reflexivity.
  - intros [p ->]. unfold isRegexInclude, includeRegex.
    apply andb_true_iff. split; [apply andb_true_iff; split|].
    + unfold Js.length. simpl String.length. rewrite length_app. simpl.
      apply Z.ltb_lt. lia.
    + unfold Js.startsWith. rewrite prefix_cons.
      destruct (ascii_dec "/" "/"); [apply prefix_nil_l | congruence].
    + rewrite endsWith_slash_cons.
      * apply endsWith_slash_app.
      * destruct p; discriminate.
  - intros p ->. unfold Js.slice, Js.length, Js.clamp, includeRegex.
    simpl String.length. rewrite length_app. simpl String.length.
    set (n := String.length p).
    assert (L : Z.of_nat (S (n + 1)) = Z.of_nat n + 2) by lia.
    rewrite L.
    replace (1 <? 0) with false by reflexivity.
    replace (-1 <? 0) with true by reflexivity.
    replace (Z.to_nat (Z.min 1 (Z.of_nat n + 2))) with 1%nat by lia.
    replace (Z.to_nat (Z.max (Z.max (Z.of_nat n + 2 + -1) 0
                              - Z.min 1 (Z.of_nat n + 2)) 0))
      with n by lia.
    simpl. apply substring_app_take.
Qed.

Lemma excludeRegex_form (allowed : string) :
  (isRegexExclude allowed = true <-> exists pattern, allowed = excludeRegex pattern)
  /\ (forall pattern, allowed = excludeRegex pattern ->
        Js.slice allowed 2 (-1) = pattern)
  /\ (isRegexExclude allowed = true -> isRegexInclude allowed = false).
Proof.
  split; [split|split].
  - unfold isRegexExclude. intros E.
    apply andb_prop in E. destruct E as [E En].
    apply andb_prop in E. destruct E as [El Es].
    unfold Js.startsWith in Es.
    destruct allowed as [|c [|d t]];
      [rewrite prefix_nil_r in Es; discriminate | |].
    + rewrite prefix_cons, prefix_nil_r in Es.
      destruct (ascii_dec "!" c); discriminate.
    + rewrite !prefix_cons in Es.
      destruct (ascii_dec "!" c) as [<-|]; [|discriminate].
      destruct (ascii_dec "/" d) as [<-|]; [|discriminate].
      assert (N : t <> EmptyString).
      { intros ->. unfold Js.length in El. simpl in El. discriminate. }
      rewrite !endsWith_slash_cons in En by (exact N || discriminate).
      destruct (endsWith_slash_inv _ En) as [p ->].
      exists p. reflexivity.
  - intros [p ->]. unfold isRegexExclude, excludeRegex.
    apply andb_true_iff. split; [apply andb_true_iff; split|].
    + unfold Js.length. simpl String.length. rewrite length_app. simpl.
      apply Z.ltb_lt. lia.
    + unfold Js.startsWith. rewrite !prefix_cons.
      destruct (ascii_dec "!" "!"); [|congruence].
      destruct (ascii_dec "/" "/"); [apply prefix_nil_l | congruence].
    + rewrite !endsWith_slash_cons.
      * apply endsWith_slash_app.
      * destruct p; discriminate.
      * discriminate.
  - intros p ->. unfold Js.slice, Js.length, Js.clamp, excludeRegex.
    simpl String.length. rewrite length_app. simpl String.length.
    set (n := String.length p).
    assert (L : Z.of_nat (S (S (n + 1))) = Z.of_nat n + 3) by lia.
    rewrite L.
    replace (2 <? 0) with false by reflexivity.
    replace (-1 <? 0) with true by reflexivity.
    replace (Z.to_nat (Z.min 2 (Z.of_nat n + 3))) with 2%nat by lia.
    replace (Z.to_nat (Z.max (Z.max (Z.of_nat n + 3 + -1) 0
                              - Z.min 2 (Z.of_nat n + 3)) 0))
      with n by lia.
    simpl. apply substring_app_take.
  - unfold isRegexExclude, isRegexInclude, Js.startsWith. intros E.
    apply andb_prop in E. destruct E as [E _].
    apply andb_prop in E. destruct E as [_ Es].
    destruct allowed as [|c t]; [rewrite prefix_nil_r in Es; discriminate|].
    rewrite prefix_cons in Es.
    destruct (ascii_dec "!" c) as [<-|]; [|discriminate].
    rewrite prefix_cons.
    destruct (ascii_dec "/" "!"); [discriminate|].
    rewrite andb_false_r. reflexivity.
Qed.

(** An expression is taken for an including regular expression exactly
    when it is [/pattern/] for some pattern, the empty one included, and
    the text handed to [regEx] is that pattern. *)
Theorem isRegexInclude_iff (allowed : string) :
  (isRegexInclude allowed = true <-> exists pattern, allowed = includeRegex pattern)
  /\ forall pattern, allowed = includeRegex pattern ->
       Js.slice allowed 1 (-1) = pattern.
Proof. exact (includeRegex_form allowed). Qed.

(** The same for the excluding form [!/pattern/], which is never taken
    for the including form: the order of the two tests does not matter. *)
Theorem isRegexExclude_iff (allowed : string) :
  (isRegexExclude allowed = true <-> exists pattern, allowed = excludeRegex pattern)
  /\ (forall pattern, allowed = excludeRegex pattern ->
        Js.slice allowed 2 (-1) = pattern)
  /\ (isRegexExclude allowed = true -> isRegexInclude allowed = false).
Proof. exact (excludeRegex_form allowed). Qed.

End Wrappers.

(** ** The body as one filter *)

Lemma filter_filter_and {A} (f g : A -> bool) (l : list A) :
  List.filter f (List.filter g l) = List.filter (fun x => g x && f x) l.
Proof.
  induction l as [|x l IH]; simpl; [reflexivity|].
  destruct (g x); simpl; [destruct (f x)|]; rewrite IH; reflexivity.
Qed.

Lemma filter_all {A} (f : A -> bool) (l : list A) :
  (forall x, In x l -> f x = true) -> List.filter f l = l.
Proof.
  induction l as [|x l IH]; simpl; intros F; [reflexivity|].
  rewrite (F x (or_introl eq_refl)), IH; [reflexivity|].
  intros y I. apply F. right. exact I.
Qed.

Lemma find_all_false {A} (f : A -> bool) (l : list A) :
  (forall x, In x l -> f x = false) -> List.find f l = None.
Proof.
  intros F. destruct (List.find f l) as [x|] eqn:E; [|reflexivity].
  apply find_some in E. destruct E as [I E]. rewrite (F x I) in E. discriminate.
Qed.

Section Composition.
Context `{Imports}.

Lemma stageD_as_filter (api : VersioningApi) (config : FilterConfig)
    (fromVersion : string) (latestVersion : option string) (l : list Release) :
  stageD api config fromVersion latestVersion l
  = List.filter (stageD_keep api config fromVersion latestVersion) l.
Proof.
  unfold stageD, stageD_keep.
  destruct (stageD_bypass config);
    [symmetry; apply filter_all; reflexivity|].
  destruct (negb (isVersionStable api fromVersion)); [reflexivity|].
  unfold filterLatest, removeUnstable, latest_keep.
  destruct (Js.truthy_string latestVersion) as [latest|].
  - destruct (Js.is_false (respectLatest config)).
    + apply filter_ext. intros v. rewrite andb_true_r. reflexivity.
    + destruct (isGreaterThan api fromVersion latest).
      * apply filter_ext. intros v. rewrite andb_true_r. reflexivity.
      * apply filter_filter_and.
  - apply filter_ext. intros v. rewrite andb_true_r. reflexivity.
Qed.

Lemma afterStageB_as_filter (config : FilterConfig) (fromVersion : string)
    (versions l : list Release) :
  afterStageB config fromVersion versions l
  = List.filter (stageB_keep config fromVersion versions) l.
Proof.
  unfold afterStageB, stageB_keep.
  destruct (stageB_guard config fromVersion versions); [reflexivity|].
  symmetry. apply filter_all. reflexivity.
Qed.

Lemma recordDeprecated_versionwise (versions : list Release) :
  versionwise (recordDeprecated versions).
Proof. intros a b E. unfold recordDeprecated. rewrite E. reflexivity. Qed.

Lemma stageB_keep_versionwise (config : FilterConfig) (fromVersion : string)
    (versions : list Release) :
  versionwise (stageB_keep config fromVersion versions).
Proof.
  intros a b E. unfold stageB_keep.
  rewrite (recordDeprecated_versionwise versions a b E). reflexivity.
Qed.

Lemma stageD_keep_versionwise (api : VersioningApi) (config : FilterConfig)
    (fromVersion : string) (latestVersion : option string) :
  versionwise (stageD_keep api config fromVersion latestVersion).
Proof.
  intros a b E. unfold stageD_keep, latest_keep, sameRelease.
  rewrite E. reflexivity.
Qed.

Lemma keeps_versionwise (api : VersioningApi) (allowed : string) (s : Strategy) :
  versionwise (keeps api allowed s).
Proof. intros a b E. unfold keeps. rewrite E. reflexivity. Qed.

Lemma stageC_keep_versionwise (api : VersioningApi) (config : FilterConfig) :
  versionwise (stageC_keep api config).
Proof.
  intros a b E. unfold stageC_keep.
  destruct (Js.truthy_string (allowedVersions config)); [|reflexivity].
  destruct (firstApplicable api config s); [|reflexivity].
  apply keeps_versionwise. exact E.
Qed.

(** The record found in a filtered list is the record found in the list,
    when the test looks at versions only. *)
Lemma findRelease_filter (P : Release -> bool) (l : list Release) (wanted : string) :
  versionwise P ->
  findRelease (List.filter P l) wanted
  = match findRelease l wanted with
    | Some r => if P r then Some r else None
    | None => None
    end.
Proof.
  intros V. unfold findRelease. induction l as [|x l IH]; simpl; [reflexivity|].
  destruct (String.eqb (version x) wanted) eqn:E.
  - destruct (P x) eqn:Px; simpl.
    + rewrite E. reflexivity.
    + apply find_all_false. intros y I. apply filter_In in I.
      destruct I as [_ Py].
      destruct (String.eqb (version y) wanted) eqn:Ey; [|reflexivity].
      apply String.eqb_eq in E, Ey.
      rewrite (V y x) in Py by congruence. congruence.
  - destruct (P x); simpl; [rewrite E|]; exact IH.
Qed.

(** Stage C from any cache: either it throws, whatever the candidates and
    the cache, or it filters by a test on versions that a second run from
    the resulting cache repeats without changing the cache again. *)
Lemma stageC_shape (api : VersioningApi) (config : FilterConfig) :
  (exists e, forall l regexes,
     stageC api config l regexes = (regexes, Throw e))
  \/ exists (next : gmap string RegExp -> gmap string RegExp)
            (keep : gmap string RegExp -> Release -> bool),
       forall regexes,
         (forall l, stageC api config l regexes
                    = (next regexes, Return (List.filter (keep regexes) l)))
         /\ versionwise (keep regexes)
         /\ next (next regexes) = next regexes
         /\ (forall v, keep (next regexes) v = keep regexes v)
         /\ (cache_ok regexes -> forall v, keep regexes v = stageC_keep api config v).
Proof.
  unfold stageC_keep.
  destruct (Js.truthy_string (allowedVersions config)) as [allowed|] eqn:A.
  2:{ right. exists (fun r => r), (fun _ _ => true). intros regexes.
      split; [|repeat split].
      - intros l. rewrite (stageC_absent _ _ _ _ A).
        rewrite filter_all; reflexivity. }
  unfold firstApplicable, priority, stageC. rewrite A. simpl.
  destruct (isRegexInclude allowed) eqn:I.
  { right.
    exists (fun r => <[allowed := cachedOrCompiled r allowed (Js.slice allowed 1 (-1))]> r),
           (fun r v => RegExp_test (cachedOrCompiled r allowed (Js.slice allowed 1 (-1)))
                                   (version v)).
    intros regexes.
    assert (C : cachedOrCompiled
                  (<[allowed := cachedOrCompiled regexes allowed
                                  (Js.slice allowed 1 (-1))]> regexes)
                  allowed (Js.slice allowed 1 (-1))
                = cachedOrCompiled regexes allowed (Js.slice allowed 1 (-1))).
    { unfold cachedOrCompiled at 1. rewrite lookup_insert_eq. reflexivity. }
    split; [intros l; apply regex_branch_plain|].
    split; [intros a b E; rewrite E; reflexivity|].
    split; [rewrite C; apply insert_insert_eq|].
    split; [intros v; rewrite C; reflexivity|].
    intros Ok v. rewrite (cachedOrCompiled_include _ _ Ok I). reflexivity. }
  destruct (isRegexExclude allowed) eqn:X.
  { right.
    exists (fun r => <[allowed := cachedOrCompiled r allowed (Js.slice allowed 2 (-1))]> r),
           (fun r v => negb (RegExp_test
                               (cachedOrCompiled r allowed (Js.slice allowed 2 (-1)))
                               (version v))).
    intros regexes.
    assert (C : cachedOrCompiled
                  (<[allowed := cachedOrCompiled regexes allowed
                                  (Js.slice allowed 2 (-1))]> regexes)
                  allowed (Js.slice allowed 2 (-1))
                = cachedOrCompiled regexes allowed (Js.slice allowed 2 (-1))).
    { unfold cachedOrCompiled at 1. rewrite lookup_insert_eq. reflexivity. }
    split; [intros l; apply (regex_branch _ _ negb)|].
    split; [intros a b E; rewrite E; reflexivity|].
    split; [rewrite C; apply insert_insert_eq|].
    split; [intros v; rewrite C; reflexivity|].
    intros Ok v. rewrite (cachedOrCompiled_exclude _ _ Ok I X). reflexivity. }
  destruct (isValid api allowed).
  { right. exists (fun r => r), (fun _ v => matches api (version v) allowed).
    intros regexes. split; [reflexivity|].
    split; [intros a b E; rewrite E; reflexivity|]. repeat split. }
  destruct (negb (String.eqb (versioning config) npmVersioning_id)
            && semver_validRange allowed).
  { right.
    exists (fun r => r),
           (fun _ v => semver_satisfies (semver_coerce (version v)) allowed).
    intros regexes. split; [reflexivity|].
    split; [intros a b E; rewrite E; reflexivity|]. repeat split. }
  destruct (String.eqb (versioning config) poetryVersioning_id
            && pep440_isValid allowed).
  { right. exists (fun r => r), (fun _ v => pep440_matches (version v) allowed).
    intros regexes. split; [reflexivity|].
    split; [intros a b E; rewrite E; reflexivity|]. repeat split. }
  left. eexists. intros l regexes. reflexivity.
Qed.

(** The whole body, for a resolved scheme and a truthy current version. *)
Lemma filterVersions_shape (api : VersioningApi) (config : FilterConfig)
    (fromVersion : option string) (current : string) :
  allVersioning_get (versioning config) = Return api ->
  Js.truthy_string fromVersion = Some current ->
  (exists e, forall latestVersion versions regexes,
     filterVersions config fromVersion latestVersion versions regexes
     = (regexes, Throw e))
  \/ exists (next : gmap string RegExp -> gmap string RegExp)
            (keep : gmap string RegExp -> Release -> bool),
       forall regexes,
         (forall latestVersion versions,
            filterVersions config fromVersion latestVersion versions regexes
            = (next regexes,
               Return (List.filter
                         (fun v => isGreaterThan api (version v) current
                                   && stageB_keep config current versions v
                                   && keep regexes v
                                   && stageD_keep api config current
                                                  latestVersion v)
                         versions)))
         /\ versionwise (keep regexes)
         /\ next (next regexes) = next regexes
         /\ (forall v, keep (next regexes) v = keep regexes v)
         /\ (cache_ok regexes -> forall v, keep regexes v = stageC_keep api config v).
Proof.
  intros G F.
  destruct (stageC_shape api config) as [[e T] | (next & keep & S)].
  - left. exists e. intros latestVersion versions regexes.
    rewrite (filterVersions_run api _ _ _ current _ _ G F).
    rewrite upToStageC_run, T. reflexivity.
  - right. exists next, keep. intros regexes.
    destruct (S regexes) as (R & V & N & K & O).
    split; [|auto].
    intros latestVersion versions.
    rewrite (filterVersions_run api _ _ _ current _ _ G F).
    rewrite upToStageC_run, R, stageD_as_filter, afterStageB_as_filter.
    unfold stageA. rewrite !filter_filter_and.
    f_equal. f_equal. apply filter_ext. intros v.
    rewrite !andb_assoc. reflexivity.
Qed.

End Composition.

(** ** What the whole call does to a candidate list *)

Section WholeCall.
Context `{Imports}.

(** From a well-formed cache, a returning call keeps exactly the records
    of [versions] that pass the four tests, in their order: nothing is
    dropped for any other reason. *)
Theorem filterVersions_accepts (config : FilterConfig) (api : VersioningApi)
    (fromVersion latestVersion : option string) (current : string)
    (versions out : list Release) (regexes regexes' : gmap string RegExp) :
  cache_ok regexes ->
  allVersioning_get (versioning config) = Return api ->
  Js.truthy_string fromVersion = Some current ->
  filterVersions config fromVersion latestVersion versions regexes
  = (regexes', Return out) ->
  out = List.filter (accepts api config current latestVersion versions) versions
  /\ forall v, In v out <->
       In v versions
       /\ isGreaterThan api (version v) current = true
       /\ stageB_keep config current versions v = true
       /\ stageC_keep api config v = true
       /\ stageD_keep api config current latestVersion v = true.
Proof.
  intros Ok G F E.
  assert (O : out = List.filter
                      (accepts api config current latestVersion versions)
                      versions).
  { destruct (filterVersions_shape api config fromVersion current G F)
      as [[e T] | (next & keep & S)].
    - rewrite T in E. discriminate.
    - destruct (S regexes) as (R & _ & _ & _ & K).
      rewrite R in E. inversion E. apply filter_ext. intros v.
      unfold accepts. rewrite (K Ok v). reflexivity. }
  split; [exact O|]. intros v. rewrite O, filter_In. unfold accepts.
  rewrite !andb_true_iff. tauto.
Qed.

(** Records with the same version string share their fate: the verdict
    never looks at anything else of a record, its own deprecation flag
    included. *)
Theorem filterVersions_same_version_same_fate (config : FilterConfig)
    (fromVersion latestVersion : option string)
    (versions out : list Release) (regexes regexes' : gmap string RegExp)
    (a b : Release) :
  filterVersions config fromVersion latestVersion versions regexes
  = (regexes', Return out) ->
  In a versions -> In b versions -> version a = version b ->
  (In a out <-> In b out).
Proof.
  intros E Ia Ib V.
  destruct (filterVersions_returns _ _ _ _ _ _ _ E)
    as (api & G & [[_ ->] | (current & mid & F & _ & _)]); [tauto|].
  destruct (filterVersions_shape api config fromVersion current G F)
    as [[e T] | (next & keep & S)].
  - rewrite T in E. discriminate.
  - destruct (S regexes) as (R & Vk & _).
    rewrite R in E. inversion E. rewrite !filter_In.
    rewrite (stageB_keep_versionwise config current versions a b V).
    rewrite (stageD_keep_versionwise api config current latestVersion a b V).
    rewrite (Vk a b V), V. tauto.
Qed.

(** Filtering is idempotent: a second call on the output of a returning
    call, from the cache that call left, returns the same output and
    leaves the cache as it is. *)
Theorem filterVersions_idempotent (config : FilterConfig)
    (fromVersion latestVersion : option string)
    (versions out : list Release) (regexes regexes' : gmap string RegExp) :
  filterVersions config fromVersion latestVersion versions regexes
  = (regexes', Return out) ->
  filterVersions config fromVersion latestVersion out regexes'
  = (regexes', Return out).
Proof.
  intros E.
  destruct (filterVersions_returns _ _ _ _ _ _ _ E)
    as (api & G & [[F ->] | (current & mid & F & _ & _)]).
  { unfold filterVersions, M.bind, M.lift in *. rewrite G, F in *.
    inversion E. reflexivity. }
  destruct (filterVersions_shape api config fromVersion current G F)
    as [[e T] | (next & keep & S)].
  { rewrite T in E. discriminate. }
  destruct (S regexes) as (R & Vk & N & K & _).
  rewrite R in E. inversion E as [[En Eo]]. clear E.
  destruct (S (next regexes)) as (R' & _). rewrite R', N.
  set (P := fun v => isGreaterThan api (version v) current
                     && stageB_keep config current versions v
                     && keep regexes v
                     && stageD_keep api config current latestVersion v).
  assert (VP : versionwise P).
  { intros a b V. unfold P.
    rewrite (stageB_keep_versionwise config current versions a b V).
    rewrite (stageD_keep_versionwise api config current latestVersion a b V).
    rewrite (Vk a b V), V. reflexivity. }
  f_equal. f_equal. apply filter_all. intros v I.
  pose proof I as I'. apply filter_In in I'. destruct I' as [Iv Pv].
  fold P in Pv. unfold P in Pv. rewrite !andb_true_iff in Pv.
  destruct Pv as [[[PA PB] PC] PD].
  rewrite PA, (K v), PC, PD, !andb_true_r. simpl.
  (* the deprecation guard on the output *)
  unfold stageB_keep, stageB_guard, recordDeprecated.
  fold P. rewrite !(findRelease_filter P versions _ VP).
  destruct (Js.truthy (ignoreDeprecated config)) eqn:Ig; [|reflexivity].
  simpl.
  destruct (findRelease versions current) as [fr|] eqn:Ef; [|reflexivity].
  destruct (P fr); [|reflexivity].
  destruct (negb (Js.truthy (isDeprecated fr))) eqn:Df; [|reflexivity].
  destruct (findRelease_In versions v Iv) as [vr Ev]. rewrite Ev.
  assert (Pr : P vr = P v).
  { apply VP. apply findRelease_some in Ev. tauto. }
  rewrite Pr.
  assert (Pv : P v = true).
  { unfold P. rewrite PA, PB, PC, PD. reflexivity. }
  rewrite Pv.
  unfold stageB_keep, stageB_guard, recordDeprecated in PB.
  rewrite Ig, Ef, Df, Ev in PB. exact PB.
Qed.

(** Over the values, that is, for collaborators that return: whether a
    call throws, and what, is decided by the configuration and the
    current version alone.  The same over calls that may throw is
    stated in the last part of the file. *)
Theorem filterVersions_throw_independent (config : FilterConfig)
    (fromVersion latestVersion : option string) (versions : list Release)
    (regexes : gmap string RegExp) (e : Thrown) :
  snd (filterVersions config fromVersion latestVersion versions regexes)
  = Throw e ->
  forall latestVersion' versions' regexes',
    filterVersions config fromVersion latestVersion' versions' regexes'
    = (regexes', Throw e).
Proof.
  intros E latestVersion' versions' regexes'.
  destruct (allVersioning_get (versioning config)) as [api|e'] eqn:G.
  2:{ rewrite (filterVersions_lookup_throws _ _ _ _ _ _ G) in E.
      simpl in E. inversion E; subst.
      apply filterVersions_lookup_throws. exact G. }
  destruct (Js.truthy_string fromVersion) as [current|] eqn:F.
  2:{ unfold filterVersions, M.bind, M.lift in E. rewrite G, F in E.
      discriminate. }
  destruct (filterVersions_shape api config fromVersion current G F)
    as [[e' T] | (next & keep & S)].
  - rewrite T in E. simpl in E. inversion E; subst. apply T.
  - destruct (S regexes) as (R & _). rewrite R in E. discriminate.
Qed.

(** The cache is not observable: from any two well-formed caches the
    call has the same outcome. *)
Theorem filterVersions_cache_unobservable (config : FilterConfig)
    (fromVersion latestVersion : option string) (versions : list Release)
    (regexes1 regexes2 : gmap string RegExp) :
  cache_ok regexes1 -> cache_ok regexes2 ->
  snd (filterVersions config fromVersion latestVersion versions regexes1)
  = snd (filterVersions config fromVersion latestVersion versions regexes2).
Proof.
  intros Ok1 Ok2.
  destruct (allVersioning_get (versioning config)) as [api|e] eqn:G.
  2:{ rewrite !(filterVersions_lookup_throws _ _ _ _ _ _ G). reflexivity. }
  destruct (Js.truthy_string fromVersion) as [current|] eqn:F.
  2:{ unfold filterVersions, M.bind, M.lift. rewrite G, F. reflexivity. }
  destruct (filterVersions_shape api config fromVersion current G F)
    as [[e T] | (next & keep & S)].
  - rewrite !T. reflexivity.
  - destruct (S regexes1) as (R1 & _ & _ & _ & K1).
    destruct (S regexes2) as (R2 & _ & _ & _ & K2).
    rewrite R1, R2. simpl. f_equal. apply filter_ext. intros v.
    rewrite (K1 Ok1 v), (K2 Ok2 v). reflexivity.
Qed.

End WholeCall.

(** ** The cache *)

Section Cache.
Context `{Imports}.

Lemma stageC_cache_frame (api : VersioningApi) (config : FilterConfig)
    (l : list Release) (regexes : gmap string RegExp) (key : string) :
  fst (stageC api config l regexes) !! key = regexes !! key
  \/ (regexes !! key = None
      /\ Js.truthy_string (allowedVersions config) = Some key
      /\ (isRegexInclude key = true \/ isRegexExclude key = true)
      /\ is_Some (fst (stageC api config l regexes) !! key)).
Proof.
  unfold stageC.
  destruct (Js.truthy_string (allowedVersions config)) as [allowed|] eqn:A;
    [|left; reflexivity].
  destruct (isRegexInclude allowed) eqn:I.
  { rewrite regex_branch_plain. simpl.
    destruct (decide (allowed = key)) as [->|N].
    - rewrite lookup_insert_eq. unfold cachedOrCompiled.
      destruct (regexes !! key) as [r|] eqn:L; [left; reflexivity|].
      right. repeat split; eauto.
    - rewrite lookup_insert_ne by exact N. left; reflexivity. }
  destruct (isRegexExclude allowed) eqn:X.
  { rewrite (regex_branch _ _ negb). simpl.
    destruct (decide (allowed = key)) as [->|N].
    - rewrite lookup_insert_eq. unfold cachedOrCompiled.
      destruct (regexes !! key) as [r|] eqn:L; [left; reflexivity|].
      right. repeat split; eauto.
    - rewrite lookup_insert_ne by exact N. left; reflexivity. }
  left.
  destruct (isValid api allowed); [reflexivity|].
  destruct (negb (String.eqb (versioning config) npmVersioning_id)
            && semver_validRange allowed); [reflexivity|].
  destruct (String.eqb (versioning config) poetryVersioning_id
            && pep440_isValid allowed); reflexivity.
Qed.

(** The cache only grows, and by one key at most: every entry present
    before a call is there unchanged after it, and the only key a call
    can add is its own [allowedVersions] expression, when that has one of
    the two regular-expression forms. *)
Theorem filterVersions_cache_append_only (config : FilterConfig)
    (fromVersion latestVersion : option string) (versions : list Release)
    (regexes : gmap string RegExp) (key : string) :
  fst (filterVersions config fromVersion latestVersion versions regexes) !! key
  = regexes !! key
  \/ (regexes !! key = None
      /\ Js.truthy_string (allowedVersions config) = Some key
      /\ (isRegexInclude key = true \/ isRegexExclude key = true)
      /\ is_Some (fst (filterVersions config fromVersion latestVersion
                                      versions regexes) !! key)).
Proof.
  unfold filterVersions, M.bind, M.lift.
  destruct (allVersioning_get (versioning config)) as [api|e];
    [|left; reflexivity].
  destruct (Js.truthy_string fromVersion) as [current|]; [|left; reflexivity].
  rewrite upToStageC_run.
  pose proof (stageC_cache_frame api config
                (afterStageB config current versions
                   (stageA api current versions)) regexes key) as Fr.
  destruct (stageC api config _ regexes) as [r' [mid|e]]; exact Fr.
Qed.

End Cache.

(** ** How the options compose *)

Section Options.
Context `{Imports}.





(** "Don't upgrade from non-deprecated to deprecated": with
    [ignoreDeprecated], and the current version listed under a record
    that is not deprecated, no returned candidate has a deprecated record
    under its version; with pairwise distinct versions no returned
    candidate is deprecated. *)
Theorem no_upgrade_to_deprecated (config : FilterConfig)
    (fromVersion latestVersion : option string) (current : string)
    (versions out : list Release) (regexes regexes' : gmap string RegExp)
    (fromRelease v : Release) :
  filterVersions config fromVersion latestVersion versions regexes
  = (regexes', Return out) ->
  Js.truthy_string fromVersion = Some current ->
  ignoreDeprecated config = Some true ->
  findRelease versions current = Some fromRelease ->
  isDeprecated fromRelease <> Some true ->
  In v out ->
  recordDeprecated versions v = false
  /\ (uniqueVersions versions -> isDeprecated v <> Some true).
Proof.
  intros E F Ig Ef Df I.
  destruct (filterVersions_returns _ _ _ _ _ _ _ E)
    as (api & G & [[F' _] | (current' & mid & F' & U & ->)]);
    [congruence|].
  assert (current' = current) by congruence. subst current'.
  rewrite upToStageC_run in U. apply stageC_sublist in U.
  assert (B : In v (afterStageB config current versions
                      (stageA api current versions))).
  { eapply sublist_In; [exact U|].
    eapply sublist_In; [apply stageD_sublist | exact I]. }
  assert (Gd : stageB_guard config current versions = true).
  { unfold stageB_guard. rewrite Ig, Ef. simpl.
    destruct (isDeprecated fromRelease) as [[|]|]; simpl; congruence. }
  unfold afterStageB in B. rewrite Gd in B. apply filter_In in B.
  destruct B as [A R]. apply negb_true_iff in R.
  split; [exact R|]. intros Un Dv.
  apply stageA_In in A. destruct A as [Iv _].
  unfold recordDeprecated in R.
  rewrite (findRelease_unique versions v Un Iv), Dv in R. discriminate.
Qed.

End Options.

(** ** The order of the candidates *)

Lemma List_filter_Permutation {A} (f : A -> bool) (l l' : list A) :
  Permutation l l' -> Permutation (List.filter f l) (List.filter f l').
Proof.
  induction 1 as [|x l l' P IH|x y l|l l' l'' P1 IH1 P2 IH2]; simpl.
  - constructor.
  - destruct (f x); [constructor|]; exact IH.
  - destruct (f x), (f y); try reflexivity. constructor.
  - etransitivity; eassumption.
Qed.

Section Order.
Context `{Imports}.

Lemma uniqueVersions_Permutation (l l' : list Release) :
  Permutation l l' -> uniqueVersions l -> uniqueVersions l'.
Proof.
  unfold uniqueVersions. intros P U.
  apply NoDup_ListNoDup. apply NoDup_ListNoDup in U.
  eapply Permutation_NoDup; [|exact U]. apply Permutation_map. exact P.
Qed.

(** With pairwise distinct versions the lookup by version does not depend
    on the order of the list. *)
Lemma findRelease_Permutation (l l' : list Release) (wanted : string) :
  uniqueVersions l -> Permutation l l' ->
  findRelease l wanted = findRelease l' wanted.
Proof.
  intros U P.
  pose proof (uniqueVersions_Permutation l l' P U) as U'.
  destruct (findRelease l wanted) as [r|] eqn:E.
  - apply findRelease_some in E. destruct E as [I V]. subst wanted.
    symmetry. apply findRelease_unique; [exact U'|].
    eapply Permutation_in; eassumption.
  - destruct (findRelease l' wanted) as [r'|] eqn:E'; [|reflexivity].
    apply findRelease_some in E'. destruct E' as [I' V']. subst wanted.
    assert (I : In r' l) by (eapply Permutation_in; [symmetry|]; eassumption).
    rewrite (findRelease_unique l r' U I) in E. discriminate.
Qed.

(** With pairwise distinct versions, which candidates are returned does
    not depend on the order in which they are listed: a reordered input
    gives the correspondingly reordered output, with the same cache. *)
Theorem filterVersions_order_independent (config : FilterConfig)
    (fromVersion latestVersion : option string)
    (versions versions' out : list Release)
    (regexes regexes' : gmap string RegExp) :
  uniqueVersions versions ->
  Permutation versions versions' ->
  filterVersions config fromVersion latestVersion versions regexes
  = (regexes', Return out) ->
  exists out',
    filterVersions config fromVersion latestVersion versions' regexes
    = (regexes', Return out')
    /\ Permutation out out'.
Proof.
  intros U P E.
  destruct (filterVersions_returns _ _ _ _ _ _ _ E)
    as (api & G & [[F ->] | (current & mid & F & _ & _)]).
  { exists []. split; [|constructor].
    unfold filterVersions, M.bind, M.lift in *. rewrite G, F in *.
    inversion E. reflexivity. }
  destruct (filterVersions_shape api config fromVersion current G F)
    as [[e T] | (next & keep & S)].
  { rewrite T in E. discriminate. }
  destruct (S regexes) as (R & _).
  rewrite R in E. inversion E as [[En Eo]]. clear E.
  eexists. split; [apply R|].
  erewrite (filter_ext _ (fun v => isGreaterThan api (version v) current
                                   && stageB_keep config current versions' v
                                   && keep regexes v
                                   && stageD_keep api config current
                                                  latestVersion v)).
  - apply List_filter_Permutation. exact P.
  - intros v. unfold stageB_keep, stageB_guard, recordDeprecated.
    rewrite !(findRelease_Permutation versions versions' _ U P). reflexivity.
Qed.

End Order.

(** ** The text of the validation error *)

Lemma unescape_escape_char (c : ascii) (rest : string) :
  JsRead.unescape (Js.escape_char c +:+ rest) = String c (JsRead.unescape rest).
Proof.
  destruct c as [b0 b1 b2 b3 b4 b5 b6 b7].
  destruct b0, b1, b2, b3, b4, b5, b6, b7; reflexivity.
Qed.

Lemma append_assoc (a b c : string) : (a +:+ b) +:+ c = a +:+ (b +:+ c).
Proof.
  induction a as [|x a IH]; [reflexivity|].
  change (String x ((a +:+ b) +:+ c) = String x (a +:+ (b +:+ c))).
  rewrite IH. reflexivity.
Qed.

Lemma unescape_escape (s rest : string) :
  JsRead.unescape (Js.escape s +:+ String Js.dquote rest) = s.
Proof.
  induction s as [|c s IH]; [reflexivity|].
  change (Js.escape (String c s)) with (Js.escape_char c +:+ Js.escape s).
  rewrite append_assoc, unescape_escape_char, IH. reflexivity.
Qed.

Lemma append_inv_head (p x y : string) : p +:+ x = p +:+ y -> x = y.
Proof.
  induction p as [|c p IH]; simpl; intros E; [exact E|].
  inversion E. auto.
Qed.

Section ErrorText.
Context `{Imports}.

(** The quoting loses nothing: two expressions with the same
    [validationMessage] are the same expression. *)
Theorem validationMessage_determines_expression (allowed allowed' : string) :
  validationMessage (invalidAllowedVersions allowed)
  = validationMessage (invalidAllowedVersions allowed') ->
  allowed = allowed'.
Proof.
  unfold invalidAllowedVersions. cbn [validationMessage]. intros E.
  apply append_inv_head in E. unfold Js.JSON_stringify in E.
  inversion E as [E'].
  rewrite <- (unescape_escape allowed EmptyString).
  rewrite <- (unescape_escape allowed' EmptyString).
  rewrite E'. reflexivity.
Qed.

End ErrorText.

(** ** Stability policy and uniqueness *)

Section Policy.
Context `{Imports}.

(** Switching the stability policy off never loses a candidate: with
    [ignoreUnstable] set to [false] the call returns, with the same
    cache, a list of which the original result is what stage D keeps. *)
Theorem ignoreUnstable_false_only_widens (config : FilterConfig)
    (api : VersioningApi) (fromVersion latestVersion : option string)
    (current : string) (versions out : list Release)
    (regexes regexes' : gmap string RegExp) :
  allVersioning_get (versioning config) = Return api ->
  Js.truthy_string fromVersion = Some current ->
  filterVersions config fromVersion latestVersion versions regexes
  = (regexes', Return out) ->
  exists all,
    filterVersions (withIgnoreUnstable (Some false) config) fromVersion
                   latestVersion versions regexes
    = (regexes', Return all)
    /\ out = List.filter (stageD_keep api config current latestVersion) all
    /\ out `sublist_of` all.
Proof.
  intros G F E.
  rewrite (filterVersions_run api _ _ _ current _ _ G F) in E.
  destruct (upToStageC api config current versions regexes)
    as [r' [mid|e]] eqn:U; [|discriminate].
  inversion E; subst. exists mid. split; [|split].
  - rewrite (filterVersions_run api (withIgnoreUnstable (Some false) config)
               _ _ current _ _ G F).
    change (upToStageC api (withIgnoreUnstable (Some false) config)
              current versions regexes)
      with (upToStageC api config current versions regexes).
    rewrite U. unfold stageD, stageD_bypass. simpl.
    destruct (Js.truthy_string (followTag config)); reflexivity.
  - apply stageD_as_filter.
  - apply stageD_sublist.
Qed.

(** Pairwise distinct versions in, pairwise distinct versions out. *)
Theorem filterVersions_keeps_unique_versions (config : FilterConfig)
    (fromVersion latestVersion : option string)
    (versions out : list Release) (regexes regexes' : gmap string RegExp) :
  uniqueVersions versions ->
  filterVersions config fromVersion latestVersion versions regexes
  = (regexes', Return out) ->
  uniqueVersions out.
Proof.
  intros U E.
  assert (S : out `sublist_of` versions).
  { apply filterVersions_returns in E.
    destruct E as (api & _ & [[_ ->] | (current & mid & _ & Up & ->)]).
    - apply sublist_nil_l.
    - apply upToStageC_sublist in Up.
      etransitivity; [apply stageD_sublist|].
      etransitivity; [exact Up | apply stageA_sublist]. }
  unfold uniqueVersions in *.
  eapply sublist_NoDup; [exact U|].
  clear -S.
  induction S; simpl;
    [constructor | apply sublist_skip | apply sublist_cons]; assumption.
Qed.

End Policy.

(** ** The further properties at concrete inputs *)

Section FurtherWitnesses.
#[local] Existing Instance Fixture.imports.

Lemma filterVersions_accepts_witness :
  [Fixture.release "1.1.0"; Fixture.release "2.0.0"]
  = List.filter (accepts Fixture.semverApi (Fixture.policy "semver")
                         "1.0.0" (Some "2.0.0") Fixture.basicCandidates)
                Fixture.basicCandidates.
Proof.
  apply (filterVersions_accepts (Fixture.policy "semver") Fixture.semverApi
           (Some "1.0.0") (Some "2.0.0") "1.0.0" Fixture.basicCandidates
           [Fixture.release "1.1.0"; Fixture.release "2.0.0"] ∅ ∅).
  - exact cache_ok_empty.
  - reflexivity.
  - reflexivity.
  - reflexivity.
Defined.

(** The two records of [2.0.0], one of them deprecated, stay together. *)
Lemma filterVersions_same_version_same_fate_witness :
  In (Fixture.release "2.0.0")
     [Fixture.release "2.0.0"; Fixture.deprecated "2.0.0"]
  <-> In (Fixture.deprecated "2.0.0")
         [Fixture.release "2.0.0"; Fixture.deprecated "2.0.0"].
Proof.
  apply (filterVersions_same_version_same_fate
           (Fixture.avoidingDeprecated "semver") (Some "1.0.0") None
           Fixture.repeatedCandidates
           [Fixture.release "2.0.0"; Fixture.deprecated "2.0.0"] ∅ ∅).
  - reflexivity.
  - simpl; auto.
  - simpl; auto.
  - reflexivity.
Defined.

Lemma filterVersions_idempotent_witness :
  filterVersions (Fixture.allowing "semver" "!/beta/") (Some "1.0.0") None
                 [Fixture.release "1.1.0"]
                 (<["!/beta/" := "beta"]> ∅)
  = (<["!/beta/" := "beta"]> ∅, Return [Fixture.release "1.1.0"]).
Proof.
  apply (filterVersions_idempotent (Fixture.allowing "semver" "!/beta/")
           (Some "1.0.0") None Fixture.betaCandidates
           [Fixture.release "1.1.0"] ∅).
  reflexivity.
Defined.

(** The invalid expression is reported with no candidate at all. *)
Lemma filterVersions_throw_independent_witness :
  filterVersions (Fixture.allowing "semver" "not-a-range!!") (Some "1.0.0")
                 (Some "9.9.9") [] (<["!/beta/" := "beta"]> ∅)
  = (<["!/beta/" := "beta"]> ∅,
     Throw (ConfigError (invalidAllowedVersions "not-a-range!!"))).
Proof.
  apply (filterVersions_throw_independent
           (Fixture.allowing "semver" "not-a-range!!") (Some "1.0.0") None
           Fixture.basicCandidates ∅).
  reflexivity.
Defined.

Lemma filterVersions_cache_ok_witness :
  cache_ok (fst (filterVersions (Fixture.allowing "semver" "!/beta/")
                   (Some "1.0.0") None Fixture.betaCandidates ∅)).
Proof.
  apply (filterVersions_cache_ok (Fixture.allowing "semver" "!/beta/")
           (Some "1.0.0") None Fixture.betaCandidates ∅).
  exact cache_ok_empty.
Defined.

Lemma filterVersions_cache_unobservable_witness :
  snd (filterVersions (Fixture.allowing "semver" "!/beta/") (Some "1.0.0")
         None Fixture.betaCandidates ∅)
  = snd (filterVersions (Fixture.allowing "semver" "!/beta/") (Some "1.0.0")
           None Fixture.betaCandidates (<["/rc/" := regEx "rc"]> ∅)).
Proof.
  apply (filterVersions_cache_unobservable
           (Fixture.allowing "semver" "!/beta/") (Some "1.0.0") None
           Fixture.betaCandidates ∅ (<["/rc/" := regEx "rc"]> ∅)).
  - exact cache_ok_empty.
  - apply cache_ok_insert.
    + exact cache_ok_empty.
    + intros _. reflexivity.
    + intros N. discriminate N.
Defined.



Lemma no_upgrade_to_deprecated_witness :
  recordDeprecated
    [Fixture.release "1.0.0"; Fixture.release "2.0.0"; Fixture.deprecated "3.0.0"]
    (Fixture.release "2.0.0") = false
  /\ (uniqueVersions
        [Fixture.release "1.0.0"; Fixture.release "2.0.0";
         Fixture.deprecated "3.0.0"] ->
      isDeprecated (Fixture.release "2.0.0") <> Some true).
Proof.
  apply (no_upgrade_to_deprecated (Fixture.avoidingDeprecated "semver")
           (Some "1.0.0") None "1.0.0"
           [Fixture.release "1.0.0"; Fixture.release "2.0.0";
            Fixture.deprecated "3.0.0"]
           [Fixture.release "2.0.0"] ∅ ∅
           (Fixture.release "1.0.0") (Fixture.release "2.0.0")).
  - reflexivity.
  - reflexivity.
  - reflexivity.
  - reflexivity.
  - simpl. discriminate.
  - simpl; auto.
Defined.

Lemma filterVersions_order_independent_witness :
  exists out',
    filterVersions (Fixture.policy "semver") (Some "1.0.0") (Some "2.0.0")
      [Fixture.release "1.1.0"; Fixture.release "1.0.0";
       Fixture.release "2.0.0"; Fixture.release "2.1.0-rc.1"] ∅
    = (∅, Return out')
    /\ Permutation [Fixture.release "1.1.0"; Fixture.release "2.0.0"] out'.
Proof.
  apply (filterVersions_order_independent (Fixture.policy "semver")
           (Some "1.0.0") (Some "2.0.0") Fixture.basicCandidates
           [Fixture.release "1.1.0"; Fixture.release "1.0.0";
            Fixture.release "2.0.0"; Fixture.release "2.1.0-rc.1"]
           [Fixture.release "1.1.0"; Fixture.release "2.0.0"] ∅ ∅).
  - unfold uniqueVersions. refine (bool_decide_unpack _ _).
    vm_compute. exact I.
  - apply perm_swap.
  - reflexivity.
Defined.

Lemma validationMessage_determines_expression_witness :
  validationMessage (invalidAllowedVersions "not-a-range!!")
  = validationMessage (invalidAllowedVersions "not-a-range!!")
  /\ "not-a-range!!" = "not-a-range!!".
Proof.
  split; [reflexivity|].
  apply (validationMessage_determines_expression
           "not-a-range!!" "not-a-range!!").
  reflexivity.
Defined.

Lemma ignoreUnstable_false_only_widens_witness :
  exists all,
    filterVersions (withIgnoreUnstable (Some false) (Fixture.policy "semver"))
                   (Some "1.0.0") (Some "2.0.0") Fixture.basicCandidates ∅
    = (∅, Return all)
    /\ [Fixture.release "1.1.0"; Fixture.release "2.0.0"]
       = List.filter (stageD_keep Fixture.semverApi (Fixture.policy "semver")
                                  "1.0.0" (Some "2.0.0")) all
    /\ [Fixture.release "1.1.0"; Fixture.release "2.0.0"] `sublist_of` all.
Proof.
  apply (ignoreUnstable_false_only_widens (Fixture.policy "semver")
           Fixture.semverApi (Some "1.0.0") (Some "2.0.0") "1.0.0"
           Fixture.basicCandidates
           [Fixture.release "1.1.0"; Fixture.release "2.0.0"] ∅ ∅).
  - reflexivity.
  - reflexivity.
  - reflexivity.
Defined.

Lemma filterVersions_keeps_unique_versions_witness :
  uniqueVersions [Fixture.release "1.1.0"; Fixture.release "2.0.0"].
Proof.
  apply (filterVersions_keeps_unique_versions (Fixture.policy "semver")
           (Some "1.0.0") (Some "2.0.0") Fixture.basicCandidates
           [Fixture.release "1.1.0"; Fixture.release "2.0.0"] ∅ ∅).
  - unfold uniqueVersions. refine (bool_decide_unpack _ _).
    vm_compute. exact I.
  - reflexivity.
Defined.

Lemma filterVersions_throws_only_witness :
  allVersioning_get (versioning (Fixture.allowing "semver" "not-a-range!!"))
  = Throw (ConfigError (invalidAllowedVersions "not-a-range!!"))
  \/ exists allowed,
       Js.truthy_string
         (allowedVersions (Fixture.allowing "semver" "not-a-range!!"))
       = Some allowed
       /\ ConfigError (invalidAllowedVersions "not-a-range!!")
          = ConfigError (invalidAllowedVersions allowed).
Proof.
  apply (filterVersions_throws_only (Fixture.allowing "semver" "not-a-range!!")
           (Some "1.0.0") None Fixture.basicCandidates ∅).
  reflexivity.
Defined.

End FurtherWitnesses.

(* ===================================================================== *)
(** * The function over calls that may throw: properties *)
(* ===================================================================== *)

Section CallsFacts.
Context `{Calls.Collaborators}.

Lemma calls_filterM_pure {A} (f : A -> Calls.t bool) (g : A -> bool)
    (l : list A) (regexes : gmap string RegExp) :
  (forall x, In x l -> f x regexes = (regexes, Calls.Ok (g x))) ->
  Calls.filterM f l regexes = (regexes, Calls.Ok (List.filter g l)).
Proof.
  induction l as [|x l IH]; intros Hf; simpl; [reflexivity|].
  unfold Calls.bind. rewrite (Hf x (or_introl eq_refl)).
  rewrite IH by (intros y Hy; apply Hf; right; exact Hy).
  unfold Calls.ret. destruct (g x); reflexivity.
Qed.



Lemma calls_stageA_agree (api : Calls.Scheme) (values : VersioningApi)
    (current : string) (versions : list Release)
    (regexes : gmap string RegExp) :
  (forall v, In v versions ->
     Calls.call_isGreaterThan api (version v) current
     = Calls.Ok (isGreaterThan values (version v) current)) ->
  Calls.stageA api current versions regexes
  = (regexes, Calls.Ok (stageA values current versions)).
Proof.
  intros L. unfold Calls.stageA, stageA. apply calls_filterM_pure.
  intros v I. unfold Calls.lift. rewrite (L v I). reflexivity.
Qed.

Lemma calls_stageB_agree (config : FilterConfig) (current : string)
    (versions l : list Release) (regexes : gmap string RegExp) :
  (forall v, In v l -> In v versions) ->
  Calls.stageB config current versions l regexes
  = (regexes, Calls.Ok (afterStageB config current versions l)).
Proof.
  intros Sub. unfold Calls.stageB, afterStageB.
  destruct (stageB_guard config current versions); [|reflexivity].
  apply calls_filterM_pure. intros v I.
  unfold Calls.stageB_callback, recordDeprecated.
  destruct (findRelease_In versions v (Sub v I)) as [r ->].
  destruct (Js.truthy (isDeprecated r)); reflexivity.
Qed.

Lemma calls_regex_branch (key pattern : string) (wrap : bool -> bool)
    (l : list Release) (regexes : gmap string RegExp) :
  Calls.call_regEx pattern = Calls.Ok (regEx pattern) ->
  Calls.bind (Calls.cacheRegex key pattern)
    (fun _ => Calls.filterM
                (fun v => Calls.bind (Calls.testCached key (version v))
                            (fun found => Calls.ret (wrap found))) l)
    regexes
  = (<[key := cachedOrCompiled regexes key pattern]> regexes,
     Calls.Ok (List.filter
                 (fun v => wrap (RegExp_test
                                   (cachedOrCompiled regexes key pattern)
                                   (version v))) l)).
Proof.
  intros R. unfold Calls.bind at 1. unfold Calls.cacheRegex, cachedOrCompiled.
  rewrite R.
  destruct (regexes !! key) as [r|];
    (apply calls_filterM_pure; intros v _;
     unfold Calls.bind, Calls.testCached; rewrite lookup_insert_eq;
     reflexivity).
Qed.

Lemma calls_regex_branch_plain (key pattern : string)
    (l : list Release) (regexes : gmap string RegExp) :
  Calls.call_regEx pattern = Calls.Ok (regEx pattern) ->
  Calls.bind (Calls.cacheRegex key pattern)
    (fun _ => Calls.filterM (fun v => Calls.testCached key (version v)) l)
    regexes
  = (<[key := cachedOrCompiled regexes key pattern]> regexes,
     Calls.Ok (List.filter
                 (fun v => RegExp_test (cachedOrCompiled regexes key pattern)
                                       (version v)) l)).
Proof.
  intros R. unfold Calls.bind at 1. unfold Calls.cacheRegex, cachedOrCompiled.
  rewrite R.
  destruct (regexes !! key) as [r|];
    (apply calls_filterM_pure; intros v _;
     unfold Calls.testCached; rewrite lookup_insert_eq; reflexivity).
Qed.

Lemma calls_stageC_agree (api : Calls.Scheme) (values : VersioningApi)
    (config : FilterConfig) (names : list string) (l : list Release)
    (regexes : gmap string RegExp) :
  Calls.ReturnsLike api values config names ->
  (forall v, In v l -> In (version v) names) ->
  Calls.stageC api config l regexes
  = match stageC values config l regexes with
    | (regexes', Return out) => (regexes', Calls.Ok out)
    | (regexes', Throw e) => (regexes', Calls.Raise (Calls.raised e))
    end.
Proof.
  intros L N. unfold Calls.stageC, stageC.
  destruct (Js.truthy_string (allowedVersions config)) as [allowed|] eqn:A;
    [|reflexivity].
  destruct (isRegexInclude allowed) eqn:I.
  { rewrite regex_branch_plain.
    apply calls_regex_branch_plain.
    apply (Calls.like_regEx_include _ _ _ _ L allowed A I). }
  destruct (isRegexExclude allowed) eqn:X.
  { rewrite (regex_branch _ _ negb).
    apply (calls_regex_branch _ _ negb).
    apply (Calls.like_regEx_exclude _ _ _ _ L allowed A X). }
  unfold Calls.bind at 1. unfold Calls.lift at 1.
  rewrite (Calls.like_isValid _ _ _ _ L allowed A).
  destruct (isValid values allowed).
  { unfold M.ret. apply calls_filterM_pure. intros v Iv. unfold Calls.lift.
    rewrite (Calls.like_matches _ _ _ _ L allowed _ A (N v Iv)). reflexivity. }
  unfold Calls.bind at 1.
  destruct (negb (String.eqb (versioning config) npmVersioning_id)) eqn:Npm;
    simpl.
  - unfold Calls.lift at 1.
    rewrite (Calls.like_validRange _ _ _ _ L allowed A).
    destruct (semver_validRange allowed).
    { unfold M.ret. apply calls_filterM_pure. intros v Iv.
      unfold Calls.bind, Calls.lift.
      rewrite (Calls.like_coerce _ _ _ _ L _ (N v Iv)).
      rewrite (Calls.like_satisfies _ _ _ _ L allowed _ A (N v Iv)).
      reflexivity. }
    unfold Calls.bind at 1.
    destruct (String.eqb (versioning config) poetryVersioning_id); simpl.
    + unfold Calls.lift at 1.
      rewrite (Calls.like_pep440_isValid _ _ _ _ L allowed A).
      destruct (pep440_isValid allowed); [|reflexivity].
      unfold M.ret. apply calls_filterM_pure. intros v Iv. unfold Calls.lift.
      rewrite (Calls.like_pep440_matches _ _ _ _ L allowed _ A (N v Iv)).
      reflexivity.
    + reflexivity.
  - unfold Calls.ret at 1. unfold Calls.bind at 1.
    destruct (String.eqb (versioning config) poetryVersioning_id); simpl.
    + unfold Calls.lift at 1.
      rewrite (Calls.like_pep440_isValid _ _ _ _ L allowed A).
      destruct (pep440_isValid allowed); [|reflexivity].
      unfold M.ret. apply calls_filterM_pure. intros v Iv. unfold Calls.lift.
      rewrite (Calls.like_pep440_matches _ _ _ _ L allowed _ A (N v Iv)).
      reflexivity.
    + reflexivity.
Qed.

End CallsFacts.

Section CallsAgreement.
Context `{Calls.Collaborators}.

Lemma callArguments_current (current : string) (latestVersion : option string)
    (versions : list Release) :
  In current (Calls.callArguments current latestVersion versions).
Proof. left. reflexivity. Qed.

Lemma callArguments_latest (current latest : string)
    (latestVersion : option string) (versions : list Release) :
  Js.truthy_string latestVersion = Some latest ->
  In latest (Calls.callArguments current latestVersion versions).
Proof.
  intros L. unfold Calls.callArguments. rewrite L. right.
  apply in_or_app. left. left. reflexivity.
Qed.

Lemma callArguments_version (current : string) (latestVersion : option string)
    (versions : list Release) (v : Release) :
  In v versions ->
  In (version v) (Calls.callArguments current latestVersion versions).
Proof.
  intros I. unfold Calls.callArguments. right.
  apply in_or_app. right. apply in_map. exact I.
Qed.

Lemma calls_isVersionStable_agree (api : Calls.Scheme) (values : VersioningApi)
    (config : FilterConfig) (names : list string) (a : string)
    (regexes : gmap string RegExp) :
  Calls.ReturnsLike api values config names -> In a names ->
  Calls.isVersionStable api a regexes
  = (regexes, Calls.Ok (isVersionStable values a)).
Proof.
  intros L I. unfold Calls.isVersionStable, Calls.bind, Calls.lift.
  rewrite (Calls.like_isStable _ _ _ _ L a I). unfold isVersionStable.
  destruct (negb (isStable values a)); reflexivity.
Qed.

Lemma calls_sameRelease_agree (api : Calls.Scheme) (values : VersioningApi)
    (config : FilterConfig) (names : list string) (current : string)
    (v : Release) (regexes : gmap string RegExp) :
  Calls.ReturnsLike api values config names ->
  In current names -> In (version v) names ->
  Calls.sameRelease api current v regexes
  = (regexes, Calls.Ok (sameRelease values current v)).
Proof.
  intros L Ic Iv. unfold Calls.sameRelease, sameRelease, Calls.bind, Calls.lift.
  rewrite (Calls.like_getMajor _ _ _ _ L _ Iv).
  rewrite (Calls.like_getMajor _ _ _ _ L _ Ic).
  destruct (Js.strict_eq (getMajor values (version v))
                         (getMajor values current)); [|reflexivity].
  simpl.
  rewrite (Calls.like_getMinor _ _ _ _ L _ Iv).
  rewrite (Calls.like_getMinor _ _ _ _ L _ Ic).
  destruct (Js.strict_eq (getMinor values (version v))
                         (getMinor values current)); [|reflexivity].
  simpl.
  rewrite (Calls.like_getPatch _ _ _ _ L _ Iv).
  rewrite (Calls.like_getPatch _ _ _ _ L _ Ic).
  reflexivity.
Qed.

Lemma calls_stageD_agree (api : Calls.Scheme) (values : VersioningApi)
    (config : FilterConfig) (names : list string) (current : string)
    (latestVersion : option string) (l : list Release)
    (regexes : gmap string RegExp) :
  Calls.ReturnsLike api values config names ->
  In current names ->
  (forall latest, Js.truthy_string latestVersion = Some latest ->
                  In latest names) ->
  (forall v, In v l -> In (version v) names) ->
  Calls.stageD api config current latestVersion l regexes
  = (regexes, Calls.Ok (stageD values config current latestVersion l)).
Proof.
  intros L Ic Il N. unfold Calls.stageD, stageD.
  destruct (stageD_bypass config); [reflexivity|].
  unfold Calls.bind at 1.
  rewrite (calls_isVersionStable_agree _ _ _ _ _ _ L Ic).
  destruct (negb (isVersionStable values current)).
  - unfold unstableBranch. apply calls_filterM_pure. intros v Iv.
    unfold Calls.bind.
    rewrite (calls_isVersionStable_agree _ _ _ _ _ _ L (N v Iv)).
    destruct (isVersionStable values (version v)); [reflexivity|].
    simpl. apply (calls_sameRelease_agree _ _ _ _ _ _ _ L Ic (N v Iv)).
  - unfold Calls.bind at 1.
    rewrite (calls_filterM_pure _ (fun v => isVersionStable values (version v)))
      by (intros v Iv;
          apply (calls_isVersionStable_agree _ _ _ _ _ _ L (N v Iv))).
    fold (removeUnstable values l).
    unfold Calls.filterLatest, filterLatest.
    destruct (Js.truthy_string latestVersion) as [latest|] eqn:E;
      [|reflexivity].
    destruct (Js.is_false (respectLatest config)); [reflexivity|].
    unfold Calls.bind at 1. unfold Calls.lift at 1.
    rewrite (Calls.like_isGreaterThan _ _ _ _ L _ _ Ic (Il latest eq_refl)).
    destruct (isGreaterThan values current latest); [reflexivity|].
    apply calls_filterM_pure. intros v Iv. unfold Calls.bind, Calls.lift.
    assert (Iv' : In v l).
    { unfold removeUnstable in Iv. apply filter_In in Iv. tauto. }
    rewrite (Calls.like_isGreaterThan _ _ _ _ L _ _ (N v Iv')
               (Il latest eq_refl)).
    reflexivity.
Qed.

(** When the collaborator calls on the arguments of a call return, the
    function over calls is the function over the values they return:
    same cache, same list, and the same error when the latter throws. *)
Lemma calls_agree (values : VersioningApi) (config : FilterConfig)
    (fromVersion latestVersion : option string) (current : string)
    (versions : list Release) (regexes : gmap string RegExp) :
  Js.truthy_string fromVersion = Some current ->
  Calls.ReturnsLike (Calls.call_get (versioning config)) values config
    (Calls.callArguments current latestVersion versions) ->
  Calls.filterVersions config fromVersion latestVersion versions regexes
  = match upToStageC values config current versions regexes with
    | (regexes', Return mid) =>
        (regexes', Calls.Ok (stageD values config current latestVersion mid))
    | (regexes', Throw e) => (regexes', Calls.Raise (Calls.raised e))
    end.
Proof.
  intros F L. unfold Calls.filterVersions. rewrite F.
  set (names := Calls.callArguments current latestVersion versions) in *.
  unfold Calls.bind at 1.
  rewrite (calls_stageA_agree _ values).
  2:{ intros v I. apply (Calls.like_isGreaterThan _ _ _ _ L).
      - apply callArguments_version. exact I.
      - apply callArguments_current. }
  unfold Calls.bind at 1.
  rewrite calls_stageB_agree by (intros v I; apply stageA_In in I; tauto).
  assert (Sub : forall v,
            In v (afterStageB config current versions
                    (stageA values current versions)) -> In v versions).
  { intros v I. eapply sublist_In in I; [|apply afterStageB_sublist].
    apply stageA_In in I. tauto. }
  unfold Calls.bind at 1.
  rewrite (calls_stageC_agree _ values _ names) by
    (exact L || (intros v I; apply callArguments_version; auto)).
  rewrite upToStageC_run.
  destruct (stageC values config _ regexes) as [r' [mid|e]] eqn:C;
    [|reflexivity].
  apply (calls_stageD_agree _ values _ names).
  - exact L.
  - apply callArguments_current.
  - intros latest E. apply callArguments_latest. exact E.
  - intros v I. apply callArguments_version. apply Sub.
    eapply sublist_In; [eapply stageC_sublist; exact C | exact I].
Qed.

End CallsAgreement.

Section CallsClaims.
Context `{Calls.Collaborators}.



End CallsClaims.

Section CallsThrow.
Context `{Calls.Collaborators}.








(** When the collaborator calls return, whether a call throws, and what,
    is decided by the configuration and the current version alone: the
    same error is thrown for every other candidate list, the empty one
    included, every [latestVersion] and every cache on which the calls
    return too, and the cache is left as it was. *)
Theorem calls_throw_independent (values : VersioningApi)
    (config : FilterConfig) (fromVersion latestVersion : option string)
    (current : string) (versions : list Release)
    (regexes : gmap string RegExp) (e : Calls.Exception)
    (latestVersion' : option string) (versions' : list Release)
    (regexes' : gmap string RegExp) :
  Js.truthy_string fromVersion = Some current ->
  Calls.ReturnsLike (Calls.call_get (versioning config)) values config
    (Calls.callArguments current latestVersion versions) ->
  Calls.ReturnsLike (Calls.call_get (versioning config)) values config
    (Calls.callArguments current latestVersion' versions') ->
  snd (Calls.filterVersions config fromVersion latestVersion versions regexes)
  = Calls.Raise e ->
  Calls.filterVersions config fromVersion latestVersion' versions' regexes'
  = (regexes', Calls.Raise e).
Proof.
  intros F L L'.
  rewrite (calls_agree values _ _ _ current _ _ F L).
  rewrite (calls_agree values _ _ _ current _ _ F L').
  rewrite !upToStageC_run.
  destruct (stageC_shape values config) as [[t Th] | (next & keep & S)].
  - rewrite !Th. simpl. intros X. inversion X. reflexivity.
  - destruct (S regexes) as (R & _). rewrite R. simpl. discriminate.
Qed.

End CallsThrow.

(** ** The calls at concrete inputs *)

Section CallsRuns.
#[local] Existing Instance Fixture.imports.
#[local] Existing Instance CallsFixture.collaborators.

Lemma fixture_returns_like (config : FilterConfig) (names : list string) :
  forallb CallsFixture.parses names = true ->
  CallsFixture.compiles config = true ->
  Calls.ReturnsLike CallsFixture.semverScheme Fixture.semverApi config names.
Proof.
  intros P C.
  assert (Pa : forall a, In a names -> exists p, Fixture.parse a = Some p).
  { intros a I. pose proof (proj1 (forallb_forall _ _) P a I) as X.
    unfold CallsFixture.parses in X.
    destruct (Fixture.parse a) as [p|]; [eauto | discriminate]. }
  unfold CallsFixture.compiles in C.
  constructor; try (intros; reflexivity).
  - intros a b Ia Ib. destruct (Pa a Ia) as [p Ea], (Pa b Ib) as [q Eb].
    cbn. unfold CallsFixture.compare. rewrite Ea, Eb. reflexivity.
  - intros allowed A I. rewrite A, I in C. cbn.
    unfold CallsFixture.compile.
    destruct (CallsFixture.unclosedGroup (Js.slice allowed 1 (-1)));
      [discriminate | reflexivity].
  - intros allowed A X. rewrite A, X in C. cbn.
    unfold CallsFixture.compile.
    destruct (CallsFixture.unclosedGroup (Js.slice allowed 2 (-1)));
      [|reflexivity].
    rewrite andb_false_r in C. discriminate.
Qed.


(** The scenarios of the specification, run over the calls. *)
Example calls_run_basic_upgrade :
  CallsFixture.run (Fixture.policy "semver") (Some "1.0.0") (Some "2.0.0")
                   Fixture.basicCandidates
  = Calls.Ok [Fixture.release "1.1.0"; Fixture.release "2.0.0"].
Proof. reflexivity. Qed.

(** A scheme id that the lookup does not know is given the default
    scheme, and an absent reference returns the empty list all the same. *)
Example calls_run_unknown_scheme :
  CallsFixture.run (Fixture.policy "unknown") None None Fixture.basicCandidates
  = Calls.Ok []
  /\ CallsFixture.run (Fixture.policy "unknown") (Some "1.2.0-beta.1") None
                      Fixture.prereleaseCandidates
     = Calls.Ok [Fixture.release "1.2.0-beta.2"; Fixture.release "1.2.0"].
Proof. split; reflexivity. Qed.

(** A candidate that the scheme cannot parse: the comparison of stage A
    throws before [allowedVersions] is looked at. *)
Example calls_run_unparseable_candidate :
  CallsFixture.run (Fixture.policy "semver") (Some "1.0.0") None
                   [Fixture.release "foo"; Fixture.release "1.1.0"]
  = Calls.Raise (CallsFixture.invalidVersion "foo").
Proof. reflexivity. Qed.





Lemma calls_throw_independent_witness :
  Calls.filterVersions (Fixture.allowing "semver" "not-a-range!!")
    (Some "1.0.0") (Some "9.9.9") [] (<["!/beta/" := "beta"]> ∅)
  = (<["!/beta/" := "beta"]> ∅,
     Calls.Raise (Calls.ErrorObject
                    (Calls.errorObject (invalidAllowedVersions "not-a-range!!")))).
Proof.
  apply (calls_throw_independent Fixture.semverApi
           (Fixture.allowing "semver" "not-a-range!!") (Some "1.0.0") None
           "1.0.0" Fixture.basicCandidates ∅).
  - reflexivity.
  - apply fixture_returns_like; reflexivity.
  - apply fixture_returns_like; reflexivity.
  - reflexivity.
Defined.

End CallsRuns.
